(** * ol/webgl/ShaderBuilder: shader assembly and literal-style compilation

    A shallow embedding of [ShaderBuilder] and [parseLiteralStyle]
    (ol/webgl/ShaderBuilder.js) together with the properties of the generated
    shader text and of the style compilation result.

    - JavaScript values are a small tagged union; numbers are IEEE binary64
      (the kernel's primitive floats), strings are [string]. An object read
      as a dictionary is its own properties and those of its prototype
      chain; an object only written to by this code is a [gmap string _].
    - The builder is a mutable object: its methods are computations in a
      state monad over the builder record.
    - [parseLiteralStyle] may throw: it runs in an error monad, threading the
      two parsing contexts explicitly, including the two objects they share.
    - The functions imported from ../style/expressions.js are taken as a
      parameter of the development (record [Expressions]). *)

From Stdlib Require Import Floats.PrimFloat Strings.Ascii.
From Stdlib Require Uint63.
From stdpp Require Import gmap strings list.

Local Open Scope string_scope.
Local Open Scope list_scope.

(** ** Text helpers *)

(** The line feed character, written "\n" in the JavaScript source. *)
Definition LF : string := String "010"%char "".

(** [Array.prototype.join] on an array of strings. *)
Fixpoint join (sep : string) (l : list string) : string :=
  match l with
  | [] => ""
  | x :: rest =>
      match rest with
      | [] => x
      | _ :: _ => x +:+ sep +:+ join sep rest
      end
  end.

(** A piece of shader text given line by line: the lines are separated by
    [LF], so a leading or trailing [""] stands for a leading or trailing
    "\n" of the JavaScript string literal. *)
Definition text (ls : list string) : string := join LF ls.

(** ** JavaScript values *)

#[warnings="-register-all"]
Inductive JsValue : Type :=
| JUndefined
| JNull
| JBool (b : bool)
| JNum (x : float)
| JStr (s : string)
| JArr (items : list JsValue)
| JObject (name : string).

(** [JObject name] stands for a function or for an object other than an
    array, such as the members that a plain object inherits from
    [Object.prototype]; [name] tells them apart. *)

(** ToBoolean: [undefined], [null], [false], [0], [-0], [NaN] and [""] are
    falsy, everything else (arrays, functions and objects included) is
    truthy. *)
Definition truthy (v : JsValue) : bool :=
  match v with
  | JUndefined | JNull => false
  | JBool b => b
  | JNum x => negb (PrimFloat.eqb x 0%float) && PrimFloat.eqb x x
  | JStr s => negb (String.eqb s "")
  | JArr _ => true
  | JObject _ => true
  end.

(** [v === undefined] *)
Definition isUndefined (v : JsValue) : bool :=
  match v with JUndefined => true | _ => false end.

(** [a || b] on values. *)
Definition orElse (a b : JsValue) : JsValue := if truthy a then a else b.

(** An object read as a dictionary: its own properties, then the
    properties of the objects of its prototype chain, nearest first. *)
Record JsObject : Type := {
  ownProperties : gmap string JsValue;
  prototypeChain : list (gmap string JsValue)
}.

(** The first object of the chain that has the key decides, even when the
    value it holds is [undefined]; a key found nowhere reads as
    [undefined]. *)
Fixpoint lookupChain (chain : list (gmap string JsValue)) (k : string) : JsValue :=
  match chain with
  | [] => JUndefined
  | properties :: rest =>
      match properties !! k with
      | Some v => v
      | None => lookupChain rest k
      end
  end.

(** [o[k]] *)
Definition getProp (o : JsObject) (k : string) : JsValue :=
  lookupChain (ownProperties o :: prototypeChain o) k.

(** [Object.prototype]: what every plain object inherits. The accessor
    [__proto__] is given by the value it returns for a plain object. *)
Definition objectPrototype : gmap string JsValue :=
  list_to_map
    [("constructor", JObject "Object");
     ("__defineGetter__", JObject "Object.prototype.__defineGetter__");
     ("__defineSetter__", JObject "Object.prototype.__defineSetter__");
     ("hasOwnProperty", JObject "Object.prototype.hasOwnProperty");
     ("__lookupGetter__", JObject "Object.prototype.__lookupGetter__");
     ("__lookupSetter__", JObject "Object.prototype.__lookupSetter__");
     ("isPrototypeOf", JObject "Object.prototype.isPrototypeOf");
     ("propertyIsEnumerable", JObject "Object.prototype.propertyIsEnumerable");
     ("toString", JObject "Object.prototype.toString");
     ("valueOf", JObject "Object.prototype.valueOf");
     ("__proto__", JObject "Object.prototype");
     ("toLocaleString", JObject "Object.prototype.toLocaleString")].

(** An object literal [{k1: v1, ...}], or any object whose prototype is
    [Object.prototype]. *)
Definition plainObject (properties : gmap string JsValue) : JsObject :=
  {| ownProperties := properties; prototypeChain := [objectPrototype] |}.

(** ** The shader builder *)

Module Varying.
(** VaryingDescription *)
Record t : Type := mk { name : string; type : string; expression : string }.
End Varying.

Module ShaderBuilder.

Record t : Type := mk {
  uniforms : list string;
  attributes : list string;
  varyings : list Varying.t;
  sizeExpression : string;
  rotationExpression : string;
  offsetExpression : string;
  colorExpression : string;
  texCoordExpression : string;
  discardExpression : string;
  rotateWithView : bool
}.

(** A method call on a builder: the returned value and the builder after
    the call. Mutators return [this] in the source; here they return [tt]
    and the caller keeps using the threaded builder. *)
Definition Method (A : Type) : Type := t -> A * t.

Definition ret {A} (a : A) : Method A := fun this => (a, this).
Definition bind {A B} (m : Method A) (k : A -> Method B) : Method B :=
  fun this => let (a, this') := m this in k a this'.
Definition exec {A} (m : Method A) (this : t) : t := snd (m this).
Definition eval {A} (m : Method A) (this : t) : A := fst (m this).

(** [new ShaderBuilder()] *)
Definition new : t :=
  {| uniforms := [];
     attributes := [];
     varyings := [];
     sizeExpression := "vec2(1.0)";
     rotationExpression := "0.0";
     offsetExpression := "vec2(0.0)";
     colorExpression := "vec4(1.0)";
     texCoordExpression := "vec4(0.0, 0.0, 1.0, 1.0)";
     discardExpression := "false";
     rotateWithView := false |}.

Definition addUniform (name : string) : Method unit := fun this =>
  (tt, mk (uniforms this ++ [name]) (attributes this) (varyings this)
          (sizeExpression this) (rotationExpression this) (offsetExpression this)
          (colorExpression this) (texCoordExpression this) (discardExpression this)
          (rotateWithView this)).

Definition addAttribute (name : string) : Method unit := fun this =>
  (tt, mk (uniforms this) (attributes this ++ [name]) (varyings this)
          (sizeExpression this) (rotationExpression this) (offsetExpression this)
          (colorExpression this) (texCoordExpression this) (discardExpression this)
          (rotateWithView this)).

Definition addVarying (name type expression : string) : Method unit := fun this =>
  (tt, mk (uniforms this) (attributes this)
          (varyings this ++ [Varying.mk name type expression])
          (sizeExpression this) (rotationExpression this) (offsetExpression this)
          (colorExpression this) (texCoordExpression this) (discardExpression this)
          (rotateWithView this)).

Definition setSizeExpression (expression : string) : Method unit := fun this =>
  (tt, mk (uniforms this) (attributes this) (varyings this)
          expression (rotationExpression this) (offsetExpression this)
          (colorExpression this) (texCoordExpression this) (discardExpression this)
          (rotateWithView this)).

Definition setRotationExpression (expression : string) : Method unit := fun this =>
  (tt, mk (uniforms this) (attributes this) (varyings this)
          (sizeExpression this) expression (offsetExpression this)
          (colorExpression this) (texCoordExpression this) (discardExpression this)
          (rotateWithView this)).

Definition setSymbolOffsetExpression (expression : string) : Method unit := fun this =>
  (tt, mk (uniforms this) (attributes this) (varyings this)
          (sizeExpression this) (rotationExpression this) expression
          (colorExpression this) (texCoordExpression this) (discardExpression this)
          (rotateWithView this)).

Definition setColorExpression (expression : string) : Method unit := fun this =>
  (tt, mk (uniforms this) (attributes this) (varyings this)
          (sizeExpression this) (rotationExpression this) (offsetExpression this)
          expression (texCoordExpression this) (discardExpression this)
          (rotateWithView this)).

Definition setTextureCoordinateExpression (expression : string) : Method unit := fun this =>
  (tt, mk (uniforms this) (attributes this) (varyings this)
          (sizeExpression this) (rotationExpression this) (offsetExpression this)
          (colorExpression this) expression (discardExpression this)
          (rotateWithView this)).

Definition setFragmentDiscardExpression (expression : string) : Method unit := fun this =>
  (tt, mk (uniforms this) (attributes this) (varyings this)
          (sizeExpression this) (rotationExpression this) (offsetExpression this)
          (colorExpression this) (texCoordExpression this) expression
          (rotateWithView this)).

Definition setSymbolRotateWithView (rotateWithView' : bool) : Method unit := fun this =>
  (tt, mk (uniforms this) (attributes this) (varyings this)
          (sizeExpression this) (rotationExpression this) (offsetExpression this)
          (colorExpression this) (texCoordExpression this) (discardExpression this)
          rotateWithView').

Definition getSizeExpression : Method string := fun this => (sizeExpression this, this).
Definition getOffsetExpression : Method string := fun this => (offsetExpression this, this).
Definition getColorExpression : Method string := fun this => (colorExpression this, this).
Definition getTextureCoordinateExpression : Method string :=
  fun this => (texCoordExpression this, this).
Definition getFragmentDiscardExpression : Method string :=
  fun this => (discardExpression this, this).

(** The varying that carries the hit color in hit detection mode. *)
Definition hitColorVarying : Varying.t := Varying.mk "v_hitColor" "vec4" "a_hitColor".

Definition uniformDeclaration (uniform : string) : string := "uniform " +:+ uniform +:+ ";".
Definition attributeDeclaration (attribute : string) : string :=
  "attribute " +:+ attribute +:+ ";".
Definition varyingDeclaration (varying : Varying.t) : string :=
  "varying " +:+ Varying.type varying +:+ " " +:+ Varying.name varying +:+ ";".
Definition varyingAssignment (varying : Varying.t) : string :=
  "  " +:+ Varying.name varying +:+ " = " +:+ Varying.expression varying +:+ ";".

(** The literal pieces of the vertex shader template, in order. *)
Definition vertexUniformsHeader : string :=
  text ["precision mediump float;";
        "uniform mat4 u_projectionMatrix;";
        "uniform mat4 u_offsetScaleMatrix;";
        "uniform mat4 u_offsetRotateMatrix;";
        "uniform float u_time;";
        "uniform float u_zoom;";
        "uniform float u_resolution;";
        ""].

Definition vertexAttributesHeader : string :=
  text [""; "attribute vec2 a_position;"; "attribute float a_index;"; ""].

Definition varyingsHeader : string :=
  text [""; "varying vec2 v_texCoord;"; "varying vec2 v_quadCoord;"; ""].

Definition vertexMainOpening : string :=
  text [""; "void main(void) {"; "  mat4 offsetMatrix = "].

Definition vertexHalfSize : string := text [";"; "  vec2 halfSize = "].
Definition vertexOffset : string := text [" * 0.5;"; "  vec2 offset = "].
Definition vertexAngle : string := text [";"; "  float angle = "].

Definition vertexQuadOffsets : string :=
  text [";";
        "  float offsetX;";
        "  float offsetY;";
        "  if (a_index == 0.0) {";
        "    offsetX = (offset.x - halfSize.x) * cos(angle) + (offset.y - halfSize.y) * sin(angle);";
        "    offsetY = (offset.y - halfSize.y) * cos(angle) - (offset.x - halfSize.x) * sin(angle);";
        "  } else if (a_index == 1.0) {";
        "    offsetX = (offset.x + halfSize.x) * cos(angle) + (offset.y - halfSize.y) * sin(angle);";
        "    offsetY = (offset.y - halfSize.y) * cos(angle) - (offset.x + halfSize.x) * sin(angle);";
        "  } else if (a_index == 2.0) {";
        "    offsetX = (offset.x + halfSize.x) * cos(angle) + (offset.y + halfSize.y) * sin(angle);";
        "    offsetY = (offset.y + halfSize.y) * cos(angle) - (offset.x + halfSize.x) * sin(angle);";
        "  } else {";
        "    offsetX = (offset.x - halfSize.x) * cos(angle) + (offset.y + halfSize.y) * sin(angle);";
        "    offsetY = (offset.y + halfSize.y) * cos(angle) - (offset.x - halfSize.x) * sin(angle);";
        "  }";
        "  vec4 offsets = offsetMatrix * vec4(offsetX, offsetY, 0.0, 0.0);";
        "  gl_Position = u_projectionMatrix * vec4(a_position, 0.0, 1.0) + offsets;";
        "  vec4 texCoord = "].

Definition vertexCoordinates : string :=
  text [";";
        "  float u = a_index == 0.0 || a_index == 3.0 ? texCoord.s : texCoord.p;";
        "  float v = a_index == 2.0 || a_index == 3.0 ? texCoord.t : texCoord.q;";
        "  v_texCoord = vec2(u, v);";
        "  u = a_index == 0.0 || a_index == 3.0 ? 0.0 : 1.0;";
        "  v = a_index == 2.0 || a_index == 3.0 ? 0.0 : 1.0;";
        "  v_quadCoord = vec2(u, v);";
        ""].

Definition mainClosing : string := text [""; "}"].

Definition getSymbolVertexShader (forHitDetection : bool) : Method string := fun this =>
  let offsetMatrix :=
    if rotateWithView this
    then "u_offsetScaleMatrix * u_offsetRotateMatrix"
    else "u_offsetScaleMatrix" in
  let attributes' := attributes this in
  let varyings' := varyings this in
  let attributes' :=
    if forHitDetection then attributes' ++ ["vec4 a_hitColor"] else attributes' in
  let varyings' :=
    if forHitDetection then varyings' ++ [hitColorVarying] else varyings' in
  (vertexUniformsHeader
     +:+ join LF (map uniformDeclaration (uniforms this))
     +:+ vertexAttributesHeader
     +:+ join LF (map attributeDeclaration attributes')
     +:+ varyingsHeader
     +:+ join LF (map varyingDeclaration varyings')
     +:+ vertexMainOpening
     +:+ offsetMatrix
     +:+ vertexHalfSize
     +:+ sizeExpression this
     +:+ vertexOffset
     +:+ offsetExpression this
     +:+ vertexAngle
     +:+ rotationExpression this
     +:+ vertexQuadOffsets
     +:+ texCoordExpression this
     +:+ vertexCoordinates
     +:+ join LF (map varyingAssignment varyings')
     +:+ mainClosing,
   this).

(** The literal pieces of the fragment shader template, in order. *)
Definition fragmentUniformsHeader : string :=
  text ["precision mediump float;";
        "uniform float u_time;";
        "uniform float u_zoom;";
        "uniform float u_resolution;";
        ""].

Definition fragmentMainOpening : string := text [""; "void main(void) {"; "  if ("].
Definition fragmentColor : string := text [") { discard; }"; "  gl_FragColor = "].
Definition fragmentPremultiply : string :=
  text [";"; "  gl_FragColor.rgb *= gl_FragColor.a;"; ""].

Definition hitDetectionTail : string :=
  "  if (gl_FragColor.a < 0.1) { discard; } gl_FragColor = v_hitColor;".

Definition getSymbolFragmentShader (forHitDetection : bool) : Method string := fun this =>
  let hitDetectionBypass := if forHitDetection then hitDetectionTail else "" in
  let varyings' := varyings this in
  let varyings' :=
    if forHitDetection then varyings' ++ [hitColorVarying] else varyings' in
  (fragmentUniformsHeader
     +:+ join LF (map uniformDeclaration (uniforms this))
     +:+ varyingsHeader
     +:+ join LF (map varyingDeclaration varyings')
     +:+ fragmentMainOpening
     +:+ discardExpression this
     +:+ fragmentColor
     +:+ colorExpression this
     +:+ fragmentPremultiply
     +:+ hitDetectionBypass
     +:+ mainClosing,
   this).

End ShaderBuilder.

(** ** Thrown errors *)

(** What a call can throw: the two errors [parseLiteralStyle] creates itself
    (identified by their message and the value spliced into it), and whatever
    the expression compiler throws, which is propagated unchanged. *)
Inductive Thrown : Type :=
| UnexpectedSymbolType (symbolType : JsValue)
    (* new Error('Unexpected symbol type: ' + symbStyle.symbolType) *)
| MissingVariable (varName : string)
    (* new Error("The following variable is missing from the style: " + varName) *)
| Delegated (message : string).

Inductive Exc (A : Type) : Type :=
| Ok (a : A)
| Throw (e : Thrown).
Arguments Ok {A} a.
Arguments Throw {A} e.

#[global] Instance Exc_ret : MRet Exc := fun A a => Ok a.
#[global] Instance Exc_bind : MBind Exc := fun A B k m =>
  match m with
  | Ok a => k a
  | Throw e => Throw e
  end.

(** ** Parsing contexts and the interface of ../style/expressions.js *)

Module ParsingContext.
Record t : Type := mk {
  inFragmentShader : bool;
  variables : list string;
  attributes : list string;
  stringLiteralsMap : gmap string float;
  functions : gmap string string
}.
End ParsingContext.

(** The constants of [ValueTypes] that [parseLiteralStyle] uses. They are
    combined with JavaScript's [|], which is [Z.lor] on 32-bit integers. *)
Record ValueTypesTable : Type := {
  NUMBER : Z;
  COLOR : Z;
  BOOLEAN : Z;
  NUMBER_ARRAY : Z
}.

(** The names imported from ../style/expressions.js. A call receives the
    content of the context object it is given and returns the content the
    object has after the call; [expressionToGlsl] may throw instead. *)
Record Expressions : Type := {
  ValueTypes : ValueTypesTable;
  expressionToGlsl :
    ParsingContext.t -> JsValue -> Z -> Exc (string * ParsingContext.t);
  getStringNumberEquivalent :
    ParsingContext.t -> string -> JsValue * ParsingContext.t;
  uniformNameForVariable : string -> string
}.

(** The two context objects of one compilation. [fragContext.variables] and
    [fragContext.stringLiteralsMap] are the very objects referenced by
    [vertContext]; the [attributes] arrays and [functions] objects are
    separate. *)
Record Contexts : Type := {
  vertContext : ParsingContext.t;
  fragContext : ParsingContext.t
}.

(** The content of [other] once a call has gone through [written]: the two
    shared objects are seen with their new content, the rest is its own. *)
Definition shareWith (written other : ParsingContext.t) : ParsingContext.t :=
  ParsingContext.mk
    (ParsingContext.inFragmentShader other)
    (ParsingContext.variables written)
    (ParsingContext.attributes other)
    (ParsingContext.stringLiteralsMap written)
    (ParsingContext.functions other).

(** ** Literal styles *)

Module Symbol.
(** LiteralSymbolStyle; an absent property reads as [JUndefined]. *)
Record t : Type := mk {
  size : JsValue;
  symbolType : JsValue;
  src : JsValue;
  crossOrigin : JsValue;
  color : JsValue;
  opacity : JsValue;
  rotation : JsValue;
  offset : JsValue;
  textureCoord : JsValue;
  rotateWithView : JsValue
}.
End Symbol.

Module Style.
(** LiteralStyle; [variables] is [None] when the property is absent. *)
Record t : Type := mk {
  filter : JsValue;
  variables : option JsObject;
  symbol : Symbol.t
}.
End Style.

(** ** The compilation result *)

(** The value set by the renderer for a uniform: either the closure created
    for a style variable (determined by the [varName] it captures; it also
    captures [style] and [vertContext]), or the [Image] element created for
    the texture, with the two properties assigned to it. *)
Inductive UniformValue : Type :=
| VariableValue (varName : string)
| Texture (crossOrigin src : JsValue).

(** The [callback] closure of an attribute entry: it is determined by the
    [attributeName] it captures (it also captures [vertContext]). *)
Inductive Callback : Type :=
| PropertyReader (attributeName : string).

Module CustomAttribute.
Record t : Type := mk { name : string; callback : Callback }.
End CustomAttribute.

Module StyleParseResult.
Record t : Type := mk {
  builder : ShaderBuilder.t;
  attributes : list CustomAttribute.t;
  uniforms : gmap string UniformValue
}.
End StyleParseResult.

(** The number returned for a missing value. *)
Definition missingValue : JsValue := JNum (-9999999)%float.

(** ** parseLiteralStyle *)

Module Values.
(** The local variables holding the style values after defaulting. *)
Record t : Type := mk {
  size : JsValue;
  color : JsValue;
  texCoord : JsValue;
  offset : JsValue;
  opacity : JsValue;
  rotation : JsValue
}.
End Values.

(** Lines 332-337: the style values, with their defaults. *)
Definition styleValues (symbStyle : Symbol.t) : Values.t :=
  {| Values.size :=
       if negb (isUndefined (Symbol.size symbStyle))
       then Symbol.size symbStyle else JNum 1%float;
     Values.color := orElse (Symbol.color symbStyle) (JStr "white");
     Values.texCoord :=
       orElse (Symbol.textureCoord symbStyle)
              (JArr [JNum 0%float; JNum 0%float; JNum 1%float; JNum 1%float]);
     Values.offset :=
       orElse (Symbol.offset symbStyle) (JArr [JNum 0%float; JNum 0%float]);
     Values.opacity :=
       if negb (isUndefined (Symbol.opacity symbStyle))
       then Symbol.opacity symbStyle else JNum 1%float;
     Values.rotation :=
       if negb (isUndefined (Symbol.rotation symbStyle))
       then Symbol.rotation symbStyle else JNum 0%float |}.

Module Compiled.
(** The compiled expressions and the contexts after line 365. *)
Record t : Type := mk {
  parsedSize : string;
  parsedOffset : string;
  parsedTexCoord : string;
  parsedRotation : string;
  parsedColor : string;
  parsedOpacity : string;
  visibleSize : string;
  contexts : Contexts
}.
End Compiled.

(** [symbStyle.symbolType === 'image'] *)
Definition isImage (symbolType : JsValue) : bool :=
  match symbolType with
  | JStr s => String.eqb s "image"
  | _ => false
  end.

(** Lines 364-382: the opacity mask selected by the [switch]. *)
Definition opacityFilter (symbolType : JsValue) (visibleSize : string) : Exc string :=
  match symbolType with
  | JStr s =>
      if String.eqb s "square" then Ok "1.0"
      else if String.eqb s "image" then Ok "1.0"
      else if String.eqb s "circle" then
        Ok ("(1.0-smoothstep(1.-4./" +:+ visibleSize
              +:+ ",1.,dot(v_quadCoord-.5,v_quadCoord-.5)*4.))")
      else if String.eqb s "triangle" then
        let st := "(v_quadCoord*2.-1.)" in
        let a := "(atan(" +:+ st +:+ ".x," +:+ st +:+ ".y))" in
        Ok ("(1.0-smoothstep(.5-3./" +:+ visibleSize
              +:+ ",.5,cos(floor(.5+" +:+ a
              +:+ "/2.094395102)*2.094395102-" +:+ a
              +:+ ")*length(" +:+ st +:+ ")))")
      else Throw (UnexpectedSymbolType symbolType)
  | _ => Throw (UnexpectedSymbolType symbolType)
  end.

(** Lines 389 and 418: the color expression and its texture extension. *)
Definition maskedColor (parsedColor parsedOpacity opacityFilter : string) : string :=
  "vec4(" +:+ parsedColor +:+ ".rgb, " +:+ parsedColor +:+ ".a * "
    +:+ parsedOpacity +:+ " * " +:+ opacityFilter +:+ ")".

Definition textureLookup : string := " * texture2D(u_texture, v_texCoord)".

(** Lines 423-428, the part that updates [vertContext.attributes]. *)
Definition registerAttribute (known : list string) (attrName : string) : list string :=
  if bool_decide (attrName ∈ known) then known else known ++ [attrName].

Section WithExpressions.

Variable E : Expressions.

(** A call of [expressionToGlsl] on [fragContext]: what it writes to the two
    shared objects is what [vertContext] refers to as well. *)
Definition viaFragContext (ctxs : Contexts) (expression : JsValue) (type : Z)
  : Exc (string * Contexts) :=
  '(glsl, frag) ← expressionToGlsl E (fragContext ctxs) expression type;
  Ok (glsl, {| vertContext := shareWith frag (vertContext ctxs); fragContext := frag |}).

(** Lines 341-365. *)
Definition compileValues (v : Values.t) : Exc Compiled.t :=
  let T := ValueTypes E in
  let vertContext :=
    ParsingContext.mk false [] [] ∅ ∅ in
  '(parsedSize, vertContext) ←
    expressionToGlsl E vertContext (Values.size v) (Z.lor (NUMBER_ARRAY T) (NUMBER T));
  '(parsedOffset, vertContext) ←
    expressionToGlsl E vertContext (Values.offset v) (NUMBER_ARRAY T);
  '(parsedTexCoord, vertContext) ←
    expressionToGlsl E vertContext (Values.texCoord v) (NUMBER_ARRAY T);
  '(parsedRotation, vertContext) ←
    expressionToGlsl E vertContext (Values.rotation v) (NUMBER T);
  let fragContext :=
    ParsingContext.mk true (ParsingContext.variables vertContext) []
                      (ParsingContext.stringLiteralsMap vertContext) ∅ in
  let ctxs := {| vertContext := vertContext; fragContext := fragContext |} in
  '(parsedColor, ctxs) ← viaFragContext ctxs (Values.color v) (COLOR T);
  '(parsedOpacity, ctxs) ← viaFragContext ctxs (Values.opacity v) (NUMBER T);
  '(sizeInFragment, ctxs) ←
    viaFragContext ctxs (Values.size v) (Z.lor (NUMBER_ARRAY T) (NUMBER T));
  Ok (Compiled.mk parsedSize parsedOffset parsedTexCoord parsedRotation
                  parsedColor parsedOpacity
                  ("vec2(" +:+ sizeInFragment +:+ ").x") ctxs).

(** Lines 383-389. *)
Definition configuredBuilder (symbStyle : Symbol.t) (c : Compiled.t) (opacityFilter : string)
  : ShaderBuilder.t :=
  ShaderBuilder.exec
    (ShaderBuilder.bind
       (ShaderBuilder.setSizeExpression ("vec2(" +:+ Compiled.parsedSize c +:+ ")"))
       (fun _ => ShaderBuilder.bind
       (ShaderBuilder.setRotationExpression (Compiled.parsedRotation c))
       (fun _ => ShaderBuilder.bind
       (ShaderBuilder.setSymbolOffsetExpression (Compiled.parsedOffset c))
       (fun _ => ShaderBuilder.bind
       (ShaderBuilder.setTextureCoordinateExpression (Compiled.parsedTexCoord c))
       (fun _ => ShaderBuilder.bind
       (ShaderBuilder.setSymbolRotateWithView (truthy (Symbol.rotateWithView symbStyle)))
       (fun _ =>
       ShaderBuilder.setColorExpression
         (maskedColor (Compiled.parsedColor c) (Compiled.parsedOpacity c) opacityFilter)))))))
    ShaderBuilder.new.

(** Lines 390-393. *)
Definition applyFilter (filter : JsValue) (builder : ShaderBuilder.t) (ctxs : Contexts)
  : Exc (ShaderBuilder.t * Contexts) :=
  if truthy filter then
    '(parsedFilter, ctxs) ← viaFragContext ctxs filter (BOOLEAN (ValueTypes E));
    Ok (ShaderBuilder.exec
          (ShaderBuilder.setFragmentDiscardExpression ("!" +:+ parsedFilter)) builder,
        ctxs)
  else Ok (builder, ctxs).

(** Lines 395-410: one step of the [forEach] over [fragContext.variables]. *)
Definition defineUniform (acc : ShaderBuilder.t * gmap string UniformValue)
    (varName : string) : ShaderBuilder.t * gmap string UniformValue :=
  let uniformName := uniformNameForVariable E varName in
  (ShaderBuilder.exec (ShaderBuilder.addUniform ("float " +:+ uniformName)) (fst acc),
   <[uniformName := VariableValue varName]> (snd acc)).

(** Lines 411-420. *)
Definition applyTexture (symbStyle : Symbol.t)
    (acc : ShaderBuilder.t * gmap string UniformValue)
  : ShaderBuilder.t * gmap string UniformValue :=
  if isImage (Symbol.symbolType symbStyle) && truthy (Symbol.src symbStyle) then
    let texture :=
      Texture (if isUndefined (Symbol.crossOrigin symbStyle)
               then JStr "anonymous" else Symbol.crossOrigin symbStyle)
              (Symbol.src symbStyle) in
    (ShaderBuilder.exec
       (ShaderBuilder.bind (ShaderBuilder.addUniform "sampler2D u_texture")
          (fun _ => ShaderBuilder.bind ShaderBuilder.getColorExpression
          (fun colorExpression =>
             ShaderBuilder.setColorExpression (colorExpression +:+ textureLookup))))
       (fst acc),
     <["u_texture" := texture]> (snd acc))
  else acc.

(** Lines 423-428: one step of the [forEach] over [fragContext.attributes]. *)
Definition bridgeAttribute (acc : ShaderBuilder.t * list string) (attrName : string)
  : ShaderBuilder.t * list string :=
  (ShaderBuilder.exec
     (ShaderBuilder.addVarying ("v_" +:+ attrName) "float" ("a_" +:+ attrName)) (fst acc),
   registerAttribute (snd acc) attrName).

(** Lines 430-432: one step of the [forEach] over [vertContext.attributes]. *)
Definition declareAttribute (builder : ShaderBuilder.t) (attrName : string)
  : ShaderBuilder.t :=
  ShaderBuilder.exec (ShaderBuilder.addAttribute ("float a_" +:+ attrName)) builder.

(** Lines 394-448, once the builder is configured and the filter applied. *)
Definition finish (symbStyle : Symbol.t) (builder : ShaderBuilder.t) (ctxs : Contexts)
  : StyleParseResult.t * Contexts :=
  let '(builder, uniforms) :=
    foldl defineUniform (builder, ∅) (ParsingContext.variables (fragContext ctxs)) in
  let '(builder, uniforms) := applyTexture symbStyle (builder, uniforms) in
  let '(builder, vertAttributes) :=
    foldl bridgeAttribute
          (builder, ParsingContext.attributes (vertContext ctxs))
          (ParsingContext.attributes (fragContext ctxs)) in
  let builder := foldl declareAttribute builder vertAttributes in
  let vert := vertContext ctxs in
  (StyleParseResult.mk builder
     (map (fun attributeName =>
             CustomAttribute.mk attributeName (PropertyReader attributeName))
          vertAttributes)
     uniforms,
   {| vertContext :=
        ParsingContext.mk (ParsingContext.inFragmentShader vert)
                          (ParsingContext.variables vert)
                          vertAttributes
                          (ParsingContext.stringLiteralsMap vert)
                          (ParsingContext.functions vert);
      fragContext := fragContext ctxs |}).

(** [parseLiteralStyle(style)]: the result and the two context objects as
    they are when the function returns, or what is thrown. *)
Definition parseLiteralStyle (style : Style.t) : Exc (StyleParseResult.t * Contexts) :=
  let symbStyle := Style.symbol style in
  c ← compileValues (styleValues symbStyle);
  mask ← opacityFilter (Symbol.symbolType symbStyle) (Compiled.visibleSize c);
  let builder := configuredBuilder symbStyle c mask in
  '(builder, ctxs) ← applyFilter (Style.filter style) builder (Compiled.contexts c);
  Ok (finish symbStyle builder ctxs).

(** The closure stored in [uniforms] for [varName], called when [style] and
    the object behind [vertContext] have the given content. *)
Definition uniformValue (style : Style.t) (vertContext : ParsingContext.t)
    (varName : string) : Exc (JsValue * ParsingContext.t) :=
  match Style.variables style with
  | None => Throw (MissingVariable varName)
  | Some variables =>
      if isUndefined (getProp variables varName) then Throw (MissingVariable varName)
      else
        let value := getProp variables varName in
        let '(value, vertContext) :=
          match value with
          | JStr s => getStringNumberEquivalent E vertContext s
          | _ => (value, vertContext)
          end in
        Ok (if negb (isUndefined value) then value else missingValue, vertContext)
  end.

(** A [callback] of an attribute entry, called on the properties [props] of
    a feature (the feature itself is not used) when the object behind
    [vertContext] has the given content. *)
Definition attributeCallback (vertContext : ParsingContext.t) (callback : Callback)
    (props : JsObject) : JsValue * ParsingContext.t :=
  let 'PropertyReader attributeName := callback in
  let value := getProp props attributeName in
  let '(value, vertContext) :=
    match value with
    | JStr s => getStringNumberEquivalent E vertContext s
    | _ => (value, vertContext)
    end in
  (if negb (isUndefined value) then value else missingValue, vertContext).

End WithExpressions.

(** [{...style, symbol: {...style.symbol, symbolType: symbolType}}] *)
Definition withSymbolType (symbolType : JsValue) (style : Style.t) : Style.t :=
  let symbStyle := Style.symbol style in
  Style.mk (Style.filter style) (Style.variables style)
    (Symbol.mk (Symbol.size symbStyle) symbolType (Symbol.src symbStyle)
               (Symbol.crossOrigin symbStyle) (Symbol.color symbStyle)
               (Symbol.opacity symbStyle) (Symbol.rotation symbStyle)
               (Symbol.offset symbStyle) (Symbol.textureCoord symbStyle)
               (Symbol.rotateWithView symbStyle)).

(** ** A stand-in for ../style/expressions.js *)

(** Modelled from the spec: ../style/expressions.js ([ValueTypes],
    [expressionToGlsl], [getStringNumberEquivalent], [uniformNameForVariable])
    is not among the sources and the spec leaves its grammar out of scope.
    This stand-in follows the interface the spec describes, on a handful of
    expressions: a reference to a feature attribute is recorded in the
    context's [attributes] and read as [a_<name>] vertex-side, [v_<name>]
    fragment-side; a reference to a style variable is recorded in
    [variables] and read as its uniform; the literal table assigns to a new
    string the next free code. It is only used to run the compilation on
    concrete styles. *)
Module Sample.

Definition ValueTypes : ValueTypesTable :=
  {| NUMBER := 1; COLOR := 4; BOOLEAN := 8; NUMBER_ARRAY := 16 |}.

Definition uniformNameForVariable (variableName : string) : string :=
  "u_" +:+ variableName.

Definition getStringNumberEquivalent (context : ParsingContext.t) (s : string)
  : JsValue * ParsingContext.t :=
  let table := ParsingContext.stringLiteralsMap context in
  match table !! s with
  | Some code => (JNum code, context)
  | None =>
      let code := PrimFloat.of_uint63 (Uint63.of_Z (Z.of_nat (size table))) in
      (JNum code,
       ParsingContext.mk (ParsingContext.inFragmentShader context)
                         (ParsingContext.variables context)
                         (ParsingContext.attributes context)
                         (<[s := code]> table)
                         (ParsingContext.functions context))
  end.

Definition remember (name : string) (names : list string) : list string :=
  if bool_decide (name ∈ names) then names else names ++ [name].

Definition number (v : JsValue) : option string :=
  match v with
  | JNum x =>
      if PrimFloat.eqb x 0%float then Some "0.0"
      else if PrimFloat.eqb x 1%float then Some "1.0"
      else if PrimFloat.eqb x 2%float then Some "2.0"
      else None
  | _ => None
  end.

Definition unsupported {A} : Exc A := Throw (Delegated "unsupported expression").

Definition expressionToGlsl (context : ParsingContext.t) (value : JsValue) (type : Z)
  : Exc (string * ParsingContext.t) :=
  match value with
  | JBool b => Ok (if b then "true" else "false", context)
  | JNum _ =>
      match number value with
      | Some glsl => Ok (glsl, context)
      | None => unsupported
      end
  | JStr s =>
      if String.eqb s "white" then Ok ("vec4(1.0, 1.0, 1.0, 1.0)", context)
      else if String.eqb s "red" then Ok ("vec4(1.0, 0.0, 0.0, 1.0)", context)
      else unsupported
  | JArr [JStr operator; JStr name] =>
      if String.eqb operator "get" then
        Ok ((if ParsingContext.inFragmentShader context then "v_" else "a_") +:+ name,
            ParsingContext.mk (ParsingContext.inFragmentShader context)
                              (ParsingContext.variables context)
                              (remember name (ParsingContext.attributes context))
                              (ParsingContext.stringLiteralsMap context)
                              (ParsingContext.functions context))
      else if String.eqb operator "var" then
        Ok (uniformNameForVariable name,
            ParsingContext.mk (ParsingContext.inFragmentShader context)
                              (remember name (ParsingContext.variables context))
                              (ParsingContext.attributes context)
                              (ParsingContext.stringLiteralsMap context)
                              (ParsingContext.functions context))
      else unsupported
  | JArr [a; b] =>
      match number a, number b with
      | Some x, Some y => Ok ("vec2(" +:+ x +:+ ", " +:+ y +:+ ")", context)
      | _, _ => unsupported
      end
  | JArr [a; b; c; d] =>
      match number a, number b, number c, number d with
      | Some x, Some y, Some z, Some w =>
          Ok ("vec4(" +:+ x +:+ ", " +:+ y +:+ ", " +:+ z +:+ ", " +:+ w +:+ ")", context)
      | _, _, _, _ => unsupported
      end
  | _ => unsupported
  end.

Definition expressions : Expressions :=
  Build_Expressions ValueTypes expressionToGlsl getStringNumberEquivalent
                    uniformNameForVariable.

(** [{symbol: {symbolType: symbolType}}] *)
Definition bare (symbolType : JsValue) : Style.t :=
  Style.mk JUndefined None
    (Symbol.mk JUndefined symbolType JUndefined JUndefined JUndefined JUndefined
               JUndefined JUndefined JUndefined JUndefined).

(** [{filter: ['get', 'visible'], variables: {level: 'high'},
      symbol: {symbolType: 'circle', size: ['var', 'level'],
               color: ['get', 'speed'], opacity: ['get', 'speed'],
               rotation: ['get', 'heading']}}] *)
Definition rich : Style.t :=
  Style.mk (JArr [JStr "get"; JStr "visible"])
           (Some (plainObject {[ "level" := JStr "high" ]}))
    (Symbol.mk (JArr [JStr "var"; JStr "level"]) (JStr "circle") JUndefined JUndefined
               (JArr [JStr "get"; JStr "speed"]) (JArr [JStr "get"; JStr "speed"])
               (JArr [JStr "get"; JStr "heading"]) JUndefined JUndefined JUndefined).

End Sample.

(** ** Reading generated text *)

(** [s.split("\n")] *)
Fixpoint lines (s : string) : list string :=
  match s with
  | EmptyString => [""]
  | String c rest =>
      if Ascii.eqb c "010"%char then "" :: lines rest
      else
        match lines rest with
        | [] => [String c ""]
        | l :: ls => String c l :: ls
        end
  end.

(** The lines of a program that start with [keyword]. *)
Definition declarations (keyword : string) (program : string) : list string :=
  List.filter (String.prefix keyword) (lines program).

(** What [join LF] puts between the elements of [l] and one more element. *)
Definition separator {A} (l : list A) : string :=
  match l with
  | [] => ""
  | _ :: _ => LF
  end.

(** The body of [main] in the vertex program up to the user varyings. *)
Definition vertexBody (this : ShaderBuilder.t) : string :=
  ShaderBuilder.vertexMainOpening
    +:+ (if ShaderBuilder.rotateWithView this
         then "u_offsetScaleMatrix * u_offsetRotateMatrix"
         else "u_offsetScaleMatrix")
    +:+ ShaderBuilder.vertexHalfSize
    +:+ ShaderBuilder.sizeExpression this
    +:+ ShaderBuilder.vertexOffset
    +:+ ShaderBuilder.offsetExpression this
    +:+ ShaderBuilder.vertexAngle
    +:+ ShaderBuilder.rotationExpression this
    +:+ ShaderBuilder.vertexQuadOffsets
    +:+ ShaderBuilder.texCoordExpression this
    +:+ ShaderBuilder.vertexCoordinates.

(** The body of [main] in the fragment program up to the hit detection tail. *)
Definition fragmentBody (this : ShaderBuilder.t) : string :=
  ShaderBuilder.fragmentMainOpening
    +:+ ShaderBuilder.discardExpression this
    +:+ ShaderBuilder.fragmentColor
    +:+ ShaderBuilder.colorExpression this
    +:+ ShaderBuilder.fragmentPremultiply.

(** ** Programs line by line *)

(** Whether a string holds no line feed. *)
Fixpoint singleLine (s : string) : bool :=
  match s with
  | EmptyString => true
  | String c rest => negb (Ascii.eqb c "010"%char) && singleLine rest
  end.

(** Whether every string a builder holds is free of line feeds. *)
Definition singleLineBuilder (this : ShaderBuilder.t) : bool :=
  forallb singleLine (ShaderBuilder.uniforms this)
  && forallb singleLine (ShaderBuilder.attributes this)
  && forallb (fun varying =>
                singleLine (Varying.name varying)
                && singleLine (Varying.type varying)
                && singleLine (Varying.expression varying))
             (ShaderBuilder.varyings this)
  && singleLine (ShaderBuilder.sizeExpression this)
  && singleLine (ShaderBuilder.rotationExpression this)
  && singleLine (ShaderBuilder.offsetExpression this)
  && singleLine (ShaderBuilder.colorExpression this)
  && singleLine (ShaderBuilder.texCoordExpression this)
  && singleLine (ShaderBuilder.discardExpression this).

(** The lines that [join LF l] takes in a program: an empty list still
    leaves one empty line between the line breaks around it. *)
Definition block (l : list string) : list string :=
  match l with
  | [] => [""]
  | _ :: _ => l
  end.

(** The attributes and varyings a program is rendered with. *)
Definition renderedAttributes (forHitDetection : bool) (this : ShaderBuilder.t)
  : list string :=
  if forHitDetection
  then ShaderBuilder.attributes this ++ ["vec4 a_hitColor"]
  else ShaderBuilder.attributes this.

Definition renderedVaryings (forHitDetection : bool) (this : ShaderBuilder.t)
  : list Varying.t :=
  if forHitDetection
  then ShaderBuilder.varyings this ++ [ShaderBuilder.hitColorVarying]
  else ShaderBuilder.varyings this.

(** The lines of [main] in the vertex program, from its opening to the
    assignment of [v_quadCoord]. *)
Definition vertexMainLines (this : ShaderBuilder.t) : list string :=
  ["void main(void) {";
   "  mat4 offsetMatrix = "
     +:+ (if ShaderBuilder.rotateWithView this
          then "u_offsetScaleMatrix * u_offsetRotateMatrix"
          else "u_offsetScaleMatrix")
     +:+ ";";
   "  vec2 halfSize = " +:+ ShaderBuilder.sizeExpression this +:+ " * 0.5;";
   "  vec2 offset = " +:+ ShaderBuilder.offsetExpression this +:+ ";";
   "  float angle = " +:+ ShaderBuilder.rotationExpression this +:+ ";";
   "  float offsetX;";
   "  float offsetY;";
   "  if (a_index == 0.0) {";
   "    offsetX = (offset.x - halfSize.x) * cos(angle) + (offset.y - halfSize.y) * sin(angle);";
   "    offsetY = (offset.y - halfSize.y) * cos(angle) - (offset.x - halfSize.x) * sin(angle);";
   "  } else if (a_index == 1.0) {";
   "    offsetX = (offset.x + halfSize.x) * cos(angle) + (offset.y - halfSize.y) * sin(angle);";
   "    offsetY = (offset.y - halfSize.y) * cos(angle) - (offset.x + halfSize.x) * sin(angle);";
   "  } else if (a_index == 2.0) {";
   "    offsetX = (offset.x + halfSize.x) * cos(angle) + (offset.y + halfSize.y) * sin(angle);";
   "    offsetY = (offset.y + halfSize.y) * cos(angle) - (offset.x + halfSize.x) * sin(angle);";
   "  } else {";
   "    offsetX = (offset.x - halfSize.x) * cos(angle) + (offset.y + halfSize.y) * sin(angle);";
   "    offsetY = (offset.y + halfSize.y) * cos(angle) - (offset.x - halfSize.x) * sin(angle);";
   "  }";
   "  vec4 offsets = offsetMatrix * vec4(offsetX, offsetY, 0.0, 0.0);";
   "  gl_Position = u_projectionMatrix * vec4(a_position, 0.0, 1.0) + offsets;";
   "  vec4 texCoord = " +:+ ShaderBuilder.texCoordExpression this +:+ ";";
   "  float u = a_index == 0.0 || a_index == 3.0 ? texCoord.s : texCoord.p;";
   "  float v = a_index == 2.0 || a_index == 3.0 ? texCoord.t : texCoord.q;";
   "  v_texCoord = vec2(u, v);";
   "  u = a_index == 0.0 || a_index == 3.0 ? 0.0 : 1.0;";
   "  v = a_index == 2.0 || a_index == 3.0 ? 0.0 : 1.0;";
   "  v_quadCoord = vec2(u, v);"].

(** The vertex program, line by line. *)
Definition vertexLines (forHitDetection : bool) (this : ShaderBuilder.t) : list string :=
  ["precision mediump float;";
   "uniform mat4 u_projectionMatrix;";
   "uniform mat4 u_offsetScaleMatrix;";
   "uniform mat4 u_offsetRotateMatrix;";
   "uniform float u_time;";
   "uniform float u_zoom;";
   "uniform float u_resolution;"]
    ++ block (map ShaderBuilder.uniformDeclaration (ShaderBuilder.uniforms this))
    ++ ["attribute vec2 a_position;"; "attribute float a_index;"]
    ++ block (map ShaderBuilder.attributeDeclaration
                  (renderedAttributes forHitDetection this))
    ++ ["varying vec2 v_texCoord;"; "varying vec2 v_quadCoord;"]
    ++ block (map ShaderBuilder.varyingDeclaration (renderedVaryings forHitDetection this))
    ++ vertexMainLines this
    ++ block (map ShaderBuilder.varyingAssignment (renderedVaryings forHitDetection this))
    ++ ["}"].

(** The lines of [main] in the fragment program. *)
Definition fragmentMainLines (forHitDetection : bool) (this : ShaderBuilder.t)
  : list string :=
  ["void main(void) {";
   "  if (" +:+ ShaderBuilder.discardExpression this +:+ ") { discard; }";
   "  gl_FragColor = " +:+ ShaderBuilder.colorExpression this +:+ ";";
   "  gl_FragColor.rgb *= gl_FragColor.a;";
   if forHitDetection
   then "  if (gl_FragColor.a < 0.1) { discard; } gl_FragColor = v_hitColor;"
   else "";
   "}"].

(** The fragment program, line by line. *)
Definition fragmentLines (forHitDetection : bool) (this : ShaderBuilder.t)
  : list string :=
  ["precision mediump float;";
   "uniform float u_time;";
   "uniform float u_zoom;";
   "uniform float u_resolution;"]
    ++ block (map ShaderBuilder.uniformDeclaration (ShaderBuilder.uniforms this))
    ++ ["varying vec2 v_texCoord;"; "varying vec2 v_quadCoord;"]
    ++ block (map ShaderBuilder.varyingDeclaration (renderedVaryings forHitDetection this))
    ++ fragmentMainLines forHitDetection this.

(** ** More concrete inputs *)

(** A builder with one uniform, one attribute and one varying. *)
Definition sampleBuilder : ShaderBuilder.t :=
  ShaderBuilder.mk ["float u_level"] ["float a_speed"]
    [Varying.mk "v_speed" "float" "a_speed"]
    "vec2(u_level)" "0.0" "vec2(0.0, 0.0)" "vec4(v_speed)"
    "vec4(0.0, 0.0, 1.0, 1.0)" "false" false.

(** [{symbol: {symbolType: 'image', src: 'marker.png'}}] *)
Definition sampleTextured : Style.t :=
  Style.mk JUndefined None
    (Symbol.mk JUndefined (JStr "image") (JStr "marker.png") JUndefined JUndefined
               JUndefined JUndefined JUndefined JUndefined JUndefined).

(** [{variables: {angle: 'steep'},
      symbol: {symbolType: 'square', rotation: ['var', 'angle']}}]: the
    variable is referenced by the rotation only, which is compiled on the
    vertex side. *)
Definition sampleRotated : Style.t :=
  Style.mk JUndefined (Some (plainObject {[ "angle" := JStr "steep" ]}))
    (Symbol.mk JUndefined (JStr "square") JUndefined JUndefined JUndefined JUndefined
               (JArr [JStr "var"; JStr "angle"]) JUndefined JUndefined JUndefined).

(** * Properties *)

(** Closes a conjunction of closed equalities and disequalities that the
    goal has been evaluated to. *)
Ltac evaluated :=
  repeat first [reflexivity | discriminate | split].

(** ** Strings and folds *)

Lemma append_cons (c : ascii) (a b : string) : String c a +:+ b = String c (a +:+ b).
Proof. reflexivity. Qed.

Lemma append_assoc (a b c : string) : (a +:+ b) +:+ c = a +:+ (b +:+ c).
Proof.
  induction a as [|ch a IH]; [reflexivity|].
  rewrite !append_cons. by rewrite IH.
Qed.

Lemma append_empty_l (a : string) : "" +:+ a = a.
Proof. reflexivity. Qed.

Lemma append_empty_r (a : string) : a +:+ "" = a.
Proof.
  induction a as [|ch a IH]; [reflexivity|].
  rewrite append_cons. by rewrite IH.
Qed.

Lemma join_cons_cons (sep x y : string) (l : list string) :
  join sep (x :: y :: l) = x +:+ sep +:+ join sep (y :: l).
Proof. reflexivity. Qed.

Lemma join_snoc (sep : string) (l : list string) (x : string) :
  join sep (l ++ [x]) = join sep l +:+ (if l is [] then "" else sep) +:+ x.
Proof.
  induction l as [|a l IH]; [reflexivity|].
  destruct l as [|b l].
  - reflexivity.
  - change ((a :: b :: l) ++ [x]) with (a :: b :: (l ++ [x])).
    rewrite !join_cons_cons.
    change (b :: l ++ [x]) with ((b :: l) ++ [x]).
    rewrite IH. by rewrite !append_assoc.
Qed.

Lemma join_map_snoc {A} (f : A → string) (l : list A) (x : A) :
  join LF (map f (l ++ [x])) = join LF (map f l) +:+ separator l +:+ f x.
Proof.
  rewrite map_app. simpl map. rewrite join_snoc. by destruct l.
Qed.

(** ** The shader assembler *)

(** C9: rendering a program is a read-only projection of the builder. Each of
    the two methods, with either value of [forHitDetection], returns the
    builder exactly as it received it (declaration lists and expression slots
    included), and two calls in a row with the same argument return the same
    string. *)
Theorem shader_rendering_is_pure (forHitDetection : bool) (this : ShaderBuilder.t) :
  ShaderBuilder.exec (ShaderBuilder.getSymbolVertexShader forHitDetection) this = this
  ∧ ShaderBuilder.exec (ShaderBuilder.getSymbolFragmentShader forHitDetection) this = this
  ∧ ShaderBuilder.bind (ShaderBuilder.getSymbolVertexShader forHitDetection)
      (fun first => ShaderBuilder.bind (ShaderBuilder.getSymbolVertexShader forHitDetection)
      (fun second => ShaderBuilder.ret (first, second))) this
    = (let vertex :=
         ShaderBuilder.eval (ShaderBuilder.getSymbolVertexShader forHitDetection) this in
       ((vertex, vertex), this))
  ∧ ShaderBuilder.bind (ShaderBuilder.getSymbolFragmentShader forHitDetection)
      (fun first => ShaderBuilder.bind (ShaderBuilder.getSymbolFragmentShader forHitDetection)
      (fun second => ShaderBuilder.ret (first, second))) this
    = (let fragment :=
         ShaderBuilder.eval (ShaderBuilder.getSymbolFragmentShader forHitDetection) this in
       ((fragment, fragment), this)).
Proof. repeat split. Qed.

(** C4, as the code has it: the hit detection programs are the plain ones
    with text inserted at fixed places and nothing else changed. The vertex
    program gains the declaration of the attribute [vec4 a_hitColor] after
    the user attributes, the declaration of the varying [vec4 v_hitColor]
    after the user varyings and its assignment from [a_hitColor] after the
    user assignments, each on a line of its own (after a line break when the
    list it extends is not empty, on the line left empty otherwise). The
    fragment program gains the same varying declaration and, on the line
    that the plain program leaves empty before the closing brace, one line
    holding the two statements of the color override. *)
Theorem hit_detection_insertions (this : ShaderBuilder.t) :
  let declaredUniforms :=
    join LF (map ShaderBuilder.uniformDeclaration (ShaderBuilder.uniforms this)) in
  let declaredAttributes :=
    join LF (map ShaderBuilder.attributeDeclaration (ShaderBuilder.attributes this)) in
  let declaredVaryings :=
    join LF (map ShaderBuilder.varyingDeclaration (ShaderBuilder.varyings this)) in
  let assignedVaryings :=
    join LF (map ShaderBuilder.varyingAssignment (ShaderBuilder.varyings this)) in
  let attributeBreak := separator (ShaderBuilder.attributes this) in
  let varyingBreak := separator (ShaderBuilder.varyings this) in
  ShaderBuilder.eval (ShaderBuilder.getSymbolVertexShader false) this
  = ShaderBuilder.vertexUniformsHeader +:+ declaredUniforms
      +:+ ShaderBuilder.vertexAttributesHeader +:+ declaredAttributes
      +:+ ShaderBuilder.varyingsHeader +:+ declaredVaryings
      +:+ vertexBody this +:+ assignedVaryings
      +:+ ShaderBuilder.mainClosing
  ∧ ShaderBuilder.eval (ShaderBuilder.getSymbolVertexShader true) this
  = ShaderBuilder.vertexUniformsHeader +:+ declaredUniforms
      +:+ ShaderBuilder.vertexAttributesHeader +:+ declaredAttributes
      +:+ (attributeBreak +:+ "attribute vec4 a_hitColor;")
      +:+ ShaderBuilder.varyingsHeader +:+ declaredVaryings
      +:+ (varyingBreak +:+ "varying vec4 v_hitColor;")
      +:+ vertexBody this +:+ assignedVaryings
      +:+ (varyingBreak +:+ "  v_hitColor = a_hitColor;")
      +:+ ShaderBuilder.mainClosing
  ∧ ShaderBuilder.eval (ShaderBuilder.getSymbolFragmentShader false) this
  = ShaderBuilder.fragmentUniformsHeader +:+ declaredUniforms
      +:+ ShaderBuilder.varyingsHeader +:+ declaredVaryings
      +:+ fragmentBody this
      +:+ ShaderBuilder.mainClosing
  ∧ ShaderBuilder.eval (ShaderBuilder.getSymbolFragmentShader true) this
  = ShaderBuilder.fragmentUniformsHeader +:+ declaredUniforms
      +:+ ShaderBuilder.varyingsHeader +:+ declaredVaryings
      +:+ (varyingBreak +:+ "varying vec4 v_hitColor;")
      +:+ fragmentBody this
      +:+ "  if (gl_FragColor.a < 0.1) { discard; } gl_FragColor = v_hitColor;"
      +:+ ShaderBuilder.mainClosing.
Proof.
  intros. unfold ShaderBuilder.eval, ShaderBuilder.getSymbolVertexShader,
    ShaderBuilder.getSymbolFragmentShader, vertexBody, fragmentBody. cbn [fst].
  rewrite !join_map_snoc.
  change (ShaderBuilder.attributeDeclaration "vec4 a_hitColor")
    with "attribute vec4 a_hitColor;".
  change (ShaderBuilder.varyingDeclaration ShaderBuilder.hitColorVarying)
    with "varying vec4 v_hitColor;".
  change (ShaderBuilder.varyingAssignment ShaderBuilder.hitColorVarying)
    with "  v_hitColor = a_hitColor;".
  subst declaredUniforms declaredAttributes declaredVaryings assignedVaryings
    attributeBreak varyingBreak.
  rewrite !append_assoc, !append_empty_l. done.
Qed.

(** C4, as stated, fails for the fresh builder: the color override is a
    single line of text holding both statements, and it stands on the line
    that the plain fragment program leaves empty, as does the added varying
    declaration. The two fragment programs have the same number of lines,
    not one varying line and two tail lines more. *)
Lemma hit_detection_tail_is_one_line :
  let plain :=
    lines (ShaderBuilder.eval (ShaderBuilder.getSymbolFragmentShader false)
                              ShaderBuilder.new) in
  let hit :=
    lines (ShaderBuilder.eval (ShaderBuilder.getSymbolFragmentShader true)
                              ShaderBuilder.new) in
  plain = ["precision mediump float;";
           "uniform float u_time;";
           "uniform float u_zoom;";
           "uniform float u_resolution;";
           "";
           "varying vec2 v_texCoord;";
           "varying vec2 v_quadCoord;";
           "";
           "void main(void) {";
           "  if (false) { discard; }";
           "  gl_FragColor = vec4(1.0);";
           "  gl_FragColor.rgb *= gl_FragColor.a;";
           "";
           "}"]
  ∧ hit = ["precision mediump float;";
           "uniform float u_time;";
           "uniform float u_zoom;";
           "uniform float u_resolution;";
           "";
           "varying vec2 v_texCoord;";
           "varying vec2 v_quadCoord;";
           "varying vec4 v_hitColor;";
           "void main(void) {";
           "  if (false) { discard; }";
           "  gl_FragColor = vec4(1.0);";
           "  gl_FragColor.rgb *= gl_FragColor.a;";
           "  if (gl_FragColor.a < 0.1) { discard; } gl_FragColor = v_hitColor;";
           "}"]
  ∧ length hit = length plain
  ∧ length hit ≠ length plain + 3.
Proof. vm_compute. evaluated. Qed.

(** C5, as stated, fails for the fresh builder, which has no declaration of
    its own: the vertex program declares six uniforms, not four, and two
    attributes, not three. *)
Lemma vertex_skeleton_has_six_uniforms_two_attributes :
  let program :=
    ShaderBuilder.eval (ShaderBuilder.getSymbolVertexShader false) ShaderBuilder.new in
  declarations "uniform " program
  = ["uniform mat4 u_projectionMatrix;";
     "uniform mat4 u_offsetScaleMatrix;";
     "uniform mat4 u_offsetRotateMatrix;";
     "uniform float u_time;";
     "uniform float u_zoom;";
     "uniform float u_resolution;"]
  ∧ declarations "attribute " program
  = ["attribute vec2 a_position;"; "attribute float a_index;"]
  ∧ length (declarations "uniform " program) ≠ 4
  ∧ length (declarations "attribute " program) ≠ 3.
Proof. vm_compute. evaluated. Qed.

(** C5, as the code has it: for every builder state and either mode, the
    vertex program starts with the precision line and six fixed uniforms
    (projection matrix, offset-scale matrix, offset-rotate matrix, time,
    zoom, resolution), followed by the user uniforms; then two fixed
    attributes (the 2-D position and the index of the vertex in the quad),
    followed by the user attributes; then the two built-in varyings
    [v_texCoord] and [v_quadCoord], followed by the user varyings; then
    [main]. *)
Theorem vertex_skeleton (forHitDetection : bool) (this : ShaderBuilder.t) :
  ∃ body,
    ShaderBuilder.eval (ShaderBuilder.getSymbolVertexShader forHitDetection) this
    = text ["precision mediump float;";
            "uniform mat4 u_projectionMatrix;";
            "uniform mat4 u_offsetScaleMatrix;";
            "uniform mat4 u_offsetRotateMatrix;";
            "uniform float u_time;";
            "uniform float u_zoom;";
            "uniform float u_resolution;";
            ""]
      +:+ join LF (map ShaderBuilder.uniformDeclaration (ShaderBuilder.uniforms this))
      +:+ text [""; "attribute vec2 a_position;"; "attribute float a_index;"; ""]
      +:+ join LF (map ShaderBuilder.attributeDeclaration
                       (ShaderBuilder.attributes this
                          ++ if forHitDetection then ["vec4 a_hitColor"] else []))
      +:+ text [""; "varying vec2 v_texCoord;"; "varying vec2 v_quadCoord;"; ""]
      +:+ join LF (map ShaderBuilder.varyingDeclaration
                       (ShaderBuilder.varyings this
                          ++ if forHitDetection
                             then [ShaderBuilder.hitColorVarying] else []))
      +:+ text [""; "void main(void) {"; "  mat4 offsetMatrix = "]
      +:+ body.
Proof.
  unfold ShaderBuilder.eval, ShaderBuilder.getSymbolVertexShader. cbn [fst].
  destruct forHitDetection; rewrite ?app_nil_r; eexists; reflexivity.
Qed.

(** ** Defaults *)

(** C6, as stated, fails: a color, texture rectangle or offset that is
    present but falsy is replaced by its default. In
    [{symbolType: 'square', color: '', offset: 0, textureCoord: null}] none
    of the three properties is [undefined], and all three get the default. *)
Lemma falsy_color_offset_texture_are_defaulted :
  let symbStyle :=
    Symbol.mk JUndefined (JStr "square") JUndefined JUndefined (JStr "")
              JUndefined JUndefined (JNum 0%float) JNull JUndefined in
  let v := styleValues symbStyle in
  Values.color v = JStr "white"
  ∧ Values.color v
    ≠ (if isUndefined (Symbol.color symbStyle)
       then JStr "white" else Symbol.color symbStyle)
  ∧ Values.offset v = JArr [JNum 0%float; JNum 0%float]
  ∧ Values.offset v
    ≠ (if isUndefined (Symbol.offset symbStyle)
       then JArr [JNum 0%float; JNum 0%float] else Symbol.offset symbStyle)
  ∧ Values.texCoord v = JArr [JNum 0%float; JNum 0%float; JNum 1%float; JNum 1%float]
  ∧ Values.texCoord v
    ≠ (if isUndefined (Symbol.textureCoord symbStyle)
       then JArr [JNum 0%float; JNum 0%float; JNum 1%float; JNum 1%float]
       else Symbol.textureCoord symbStyle).
Proof. vm_compute. evaluated. Qed.

(** The falsy values. *)
Lemma truthy_false (v : JsValue) :
  truthy v = false
  ↔ v = JUndefined ∨ v = JNull ∨ v = JBool false ∨ v = JStr ""
    ∨ ∃ x, v = JNum x ∧ (PrimFloat.eqb x 0%float = true ∨ PrimFloat.eqb x x = false).
Proof.
  split.
  - destruct v as [| |b|x|s|items|object]; simpl; intros H; auto.
    + destruct b; [discriminate|auto].
    + do 4 right. exists x. split; [done|].
      destruct (PrimFloat.eqb x 0); [auto|]. right. exact H.
    + destruct s; [auto|discriminate].
    + discriminate.
    + discriminate.
  - intros [->|[->|[->|[->|(x & -> & H)]]]]; try reflexivity.
    simpl. destruct H as [-> | ->]; [reflexivity|]. by rewrite andb_false_r.
Qed.

(** C6, as the code has it: size, opacity and rotation get their default
    (1, 1 and 0) exactly when the property is [undefined], so that 0 and
    every other falsy value is kept; color, texture rectangle and offset get
    theirs ("white", [0, 0, 1, 1] and [0, 0]) exactly when the property is
    falsy, which [truthy_false] spells out. *)
Theorem style_defaults (symbStyle : Symbol.t) :
  let v := styleValues symbStyle in
  Values.size v
    = (if isUndefined (Symbol.size symbStyle)
       then JNum 1%float else Symbol.size symbStyle)
  ∧ Values.opacity v
    = (if isUndefined (Symbol.opacity symbStyle)
       then JNum 1%float else Symbol.opacity symbStyle)
  ∧ Values.rotation v
    = (if isUndefined (Symbol.rotation symbStyle)
       then JNum 0%float else Symbol.rotation symbStyle)
  ∧ Values.color v
    = (if truthy (Symbol.color symbStyle)
       then Symbol.color symbStyle else JStr "white")
  ∧ Values.texCoord v
    = (if truthy (Symbol.textureCoord symbStyle)
       then Symbol.textureCoord symbStyle
       else JArr [JNum 0%float; JNum 0%float; JNum 1%float; JNum 1%float])
  ∧ Values.offset v
    = (if truthy (Symbol.offset symbStyle)
       then Symbol.offset symbStyle else JArr [JNum 0%float; JNum 0%float])
  ∧ (∀ x,
       styleValues
         (Symbol.mk (JNum x) (Symbol.symbolType symbStyle) (Symbol.src symbStyle)
                    (Symbol.crossOrigin symbStyle) (Symbol.color symbStyle)
                    (JNum x) (JNum x) (Symbol.offset symbStyle)
                    (Symbol.textureCoord symbStyle) (Symbol.rotateWithView symbStyle))
       = Values.mk (JNum x) (Values.color v) (Values.texCoord v) (Values.offset v)
                   (JNum x) (JNum x)).
Proof.
  cbn zeta. unfold styleValues, orElse. cbn [Values.size Values.opacity Values.rotation
    Values.color Values.texCoord Values.offset].
  split; [by destruct (isUndefined _)|].
  split; [by destruct (isUndefined _)|].
  split; [by destruct (isUndefined _)|].
  do 3 (split; [reflexivity|]).
  intros x. reflexivity.
Qed.

(** ** The style compiler *)

Lemma Exc_bind_Ok {A B} (m : Exc A) (k : A → Exc B) (b : B) :
  m ≫= k = Ok b → ∃ a, m = Ok a ∧ k a = Ok b.
Proof. destruct m as [a|e]; intros H; [by exists a | discriminate]. Qed.

Lemma Exc_bind_Throw {A B} (m : Exc A) (k : A → Exc B) (e : Thrown) :
  m ≫= k = Throw e → m = Throw e ∨ ∃ a, m = Ok a ∧ k a = Throw e.
Proof.
  destruct m as [a|e']; intros H; [right; by exists a|].
  injection H as ->. by left.
Qed.

Lemma registerAttribute_fold (fragment known : list string) :
  ∃ added,
    foldl registerAttribute known fragment = known ++ added
    ∧ NoDup added
    ∧ ∀ name, name ∈ added ↔ name ∈ fragment ∧ name ∉ known.
Proof.
  revert known. induction fragment as [|a fragment IH]; intros known.
  - exists []. rewrite app_nil_r. split; [done|]. split; [constructor|].
    intros name. rewrite !elem_of_nil. tauto.
  - cbn [foldl]. unfold registerAttribute at 2. case_bool_decide as Hin.
    + destruct (IH known) as (added & -> & Hnd & Hadded).
      exists added. split; [done|]. split; [done|].
      intros name. rewrite Hadded, elem_of_cons. split; [tauto|].
      intros [[->|?] ?]; tauto.
    + destruct (IH (known ++ [a])) as (added & -> & Hnd & Hadded).
      exists (a :: added). split; [by rewrite <- app_assoc|]. split.
      * constructor; [|done]. rewrite Hadded, elem_of_app, list_elem_of_singleton.
        tauto.
      * intros name. rewrite !elem_of_cons, Hadded, elem_of_app, list_elem_of_singleton.
        destruct (decide (name = a)) as [->|]; tauto.
Qed.

Section Properties.

Variable E : Expressions.

Lemma viaFragContext_Ok ctxs expression type glsl ctxs' :
  viaFragContext E ctxs expression type = Ok (glsl, ctxs') →
  expressionToGlsl E (fragContext ctxs) expression type = Ok (glsl, fragContext ctxs')
  ∧ vertContext ctxs' = shareWith (fragContext ctxs') (vertContext ctxs).
Proof.
  unfold viaFragContext. intros ((g & frag) & -> & [= -> <-])%Exc_bind_Ok. done.
Qed.

Lemma parseLiteralStyle_stages style :
  parseLiteralStyle E style
  = match compileValues E (styleValues (Style.symbol style)) with
    | Ok c =>
        match opacityFilter (Symbol.symbolType (Style.symbol style))
                            (Compiled.visibleSize c) with
        | Ok mask =>
            match applyFilter E (Style.filter style)
                              (configuredBuilder (Style.symbol style) c mask)
                              (Compiled.contexts c) with
            | Ok (builder, ctxs) => Ok (finish E (Style.symbol style) builder ctxs)
            | Throw e => Throw e
            end
        | Throw e => Throw e
        end
    | Throw e => Throw e
    end.
Proof.
  unfold parseLiteralStyle.
  destruct (compileValues E _) as [c|e]; [|done]. cbn.
  destruct (opacityFilter _ _) as [mask|e]; [|done]. cbn.
  by destruct (applyFilter E _ _ _) as [[builder ctxs]|e].
Qed.

Lemma parseLiteralStyle_Ok style r ctxs :
  parseLiteralStyle E style = Ok (r, ctxs) →
  ∃ c mask builder ctxs',
    compileValues E (styleValues (Style.symbol style)) = Ok c
    ∧ opacityFilter (Symbol.symbolType (Style.symbol style)) (Compiled.visibleSize c)
      = Ok mask
    ∧ applyFilter E (Style.filter style) (configuredBuilder (Style.symbol style) c mask)
                  (Compiled.contexts c)
      = Ok (builder, ctxs')
    ∧ finish E (Style.symbol style) builder ctxs' = (r, ctxs).
Proof.
  unfold parseLiteralStyle.
  intros (c & Hc & (mask & Hmask & ((builder & ctxs') & Hfilter & [= Hfinish])%Exc_bind_Ok)
            %Exc_bind_Ok)%Exc_bind_Ok.
  by exists c, mask, builder, ctxs'.
Qed.

Lemma compileValues_Ok v c :
  compileValues E v = Ok c →
  ∃ vert1 vert2 vert3 vert4 ctxs1 ctxs2 sizeInFragment,
    let T := ValueTypes E in
    expressionToGlsl E (ParsingContext.mk false [] [] ∅ ∅) (Values.size v)
                     (Z.lor (NUMBER_ARRAY T) (NUMBER T))
    = Ok (Compiled.parsedSize c, vert1)
    ∧ expressionToGlsl E vert1 (Values.offset v) (NUMBER_ARRAY T)
      = Ok (Compiled.parsedOffset c, vert2)
    ∧ expressionToGlsl E vert2 (Values.texCoord v) (NUMBER_ARRAY T)
      = Ok (Compiled.parsedTexCoord c, vert3)
    ∧ expressionToGlsl E vert3 (Values.rotation v) (NUMBER T)
      = Ok (Compiled.parsedRotation c, vert4)
    ∧ viaFragContext E
        {| vertContext := vert4;
           fragContext :=
             ParsingContext.mk true (ParsingContext.variables vert4) []
                               (ParsingContext.stringLiteralsMap vert4) ∅ |}
        (Values.color v) (COLOR T)
      = Ok (Compiled.parsedColor c, ctxs1)
    ∧ viaFragContext E ctxs1 (Values.opacity v) (NUMBER T)
      = Ok (Compiled.parsedOpacity c, ctxs2)
    ∧ viaFragContext E ctxs2 (Values.size v) (Z.lor (NUMBER_ARRAY T) (NUMBER T))
      = Ok (sizeInFragment, Compiled.contexts c)
    ∧ Compiled.visibleSize c = "vec2(" +:+ sizeInFragment +:+ ").x".
Proof.
  unfold compileValues. cbn zeta.
  intros ((parsedSize & vert1) & H1 & H)%Exc_bind_Ok.
  apply Exc_bind_Ok in H as ((parsedOffset & vert2) & H2 & H).
  apply Exc_bind_Ok in H as ((parsedTexCoord & vert3) & H3 & H).
  apply Exc_bind_Ok in H as ((parsedRotation & vert4) & H4 & H).
  apply Exc_bind_Ok in H as ((parsedColor & ctxs1) & H5 & H).
  apply Exc_bind_Ok in H as ((parsedOpacity & ctxs2) & H6 & H).
  apply Exc_bind_Ok in H as ((sizeInFragment & ctxs3) & H7 & [= <-]).
  exists vert1, vert2, vert3, vert4, ctxs1, ctxs2, sizeInFragment.
  cbn. repeat split; assumption.
Qed.

Lemma opacityFilter_Ok symbolType visibleSize mask :
  opacityFilter symbolType visibleSize = Ok mask →
  symbolType = JStr "square" ∨ symbolType = JStr "image"
  ∨ symbolType = JStr "circle" ∨ symbolType = JStr "triangle".
Proof.
  unfold opacityFilter. destruct symbolType as [| |b|x|s|items|object]; try discriminate.
  destruct (String.eqb_spec s "square") as [->|_]; [auto|].
  destruct (String.eqb_spec s "image") as [->|_]; [auto|].
  destruct (String.eqb_spec s "circle") as [->|_]; [auto|].
  destruct (String.eqb_spec s "triangle") as [->|_]; [auto|].
  discriminate.
Qed.

Lemma applyFilter_Ok filter builder ctxs builder' ctxs' :
  applyFilter E filter builder ctxs = Ok (builder', ctxs') →
  ShaderBuilder.mk (ShaderBuilder.uniforms builder') (ShaderBuilder.attributes builder')
                   (ShaderBuilder.varyings builder') (ShaderBuilder.sizeExpression builder')
                   (ShaderBuilder.rotationExpression builder')
                   (ShaderBuilder.offsetExpression builder')
                   (ShaderBuilder.colorExpression builder')
                   (ShaderBuilder.texCoordExpression builder')
                   (ShaderBuilder.discardExpression builder)
                   (ShaderBuilder.rotateWithView builder')
  = builder
  ∧ if truthy filter
    then ∃ parsedFilter,
           viaFragContext E ctxs filter (BOOLEAN (ValueTypes E)) = Ok (parsedFilter, ctxs')
           ∧ ShaderBuilder.discardExpression builder' = "!" +:+ parsedFilter
    else ShaderBuilder.discardExpression builder' = ShaderBuilder.discardExpression builder
         ∧ ctxs' = ctxs.
Proof.
  unfold applyFilter. destruct (truthy filter).
  - intros ((parsedFilter & ctxs'') & H & [= <- <-])%Exc_bind_Ok.
    split; [by destruct builder|]. by exists parsedFilter.
  - intros [= <- <-]. split; [by destruct builder|done].
Qed.

(** The three loops of [finish] in closed form. *)
Lemma defineUniform_fold (variables : list string) builder uniforms :
  foldl (defineUniform E) (builder, uniforms) variables
  = (ShaderBuilder.mk
       (ShaderBuilder.uniforms builder
          ++ map (fun varName => "float " +:+ uniformNameForVariable E varName) variables)
       (ShaderBuilder.attributes builder) (ShaderBuilder.varyings builder)
       (ShaderBuilder.sizeExpression builder) (ShaderBuilder.rotationExpression builder)
       (ShaderBuilder.offsetExpression builder) (ShaderBuilder.colorExpression builder)
       (ShaderBuilder.texCoordExpression builder) (ShaderBuilder.discardExpression builder)
       (ShaderBuilder.rotateWithView builder),
     foldl (fun uniforms varName =>
              <[uniformNameForVariable E varName := VariableValue varName]> uniforms)
           uniforms variables).
Proof.
  revert builder uniforms. induction variables as [|varName variables IH]; intros.
  - cbn. rewrite app_nil_r. by destruct builder.
  - cbn [foldl map]. unfold defineUniform at 2. cbn [fst snd]. rewrite IH.
    cbn. by rewrite <- app_assoc.
Qed.

Lemma bridgeAttribute_fold (fragment : list string) builder known :
  foldl bridgeAttribute (builder, known) fragment
  = (ShaderBuilder.mk
       (ShaderBuilder.uniforms builder) (ShaderBuilder.attributes builder)
       (ShaderBuilder.varyings builder
          ++ map (fun attrName =>
                    Varying.mk ("v_" +:+ attrName) "float" ("a_" +:+ attrName))
                 fragment)
       (ShaderBuilder.sizeExpression builder) (ShaderBuilder.rotationExpression builder)
       (ShaderBuilder.offsetExpression builder) (ShaderBuilder.colorExpression builder)
       (ShaderBuilder.texCoordExpression builder) (ShaderBuilder.discardExpression builder)
       (ShaderBuilder.rotateWithView builder),
     foldl registerAttribute known fragment).
Proof.
  revert builder known. induction fragment as [|attrName fragment IH]; intros.
  - cbn. rewrite app_nil_r. by destruct builder.
  - cbn [foldl map]. unfold bridgeAttribute at 2. cbn [fst snd]. rewrite IH.
    cbn. by rewrite <- app_assoc.
Qed.

Lemma declareAttribute_fold (names : list string) builder :
  foldl declareAttribute builder names
  = ShaderBuilder.mk
      (ShaderBuilder.uniforms builder)
      (ShaderBuilder.attributes builder
         ++ map (fun attrName => "float a_" +:+ attrName) names)
      (ShaderBuilder.varyings builder)
      (ShaderBuilder.sizeExpression builder) (ShaderBuilder.rotationExpression builder)
      (ShaderBuilder.offsetExpression builder) (ShaderBuilder.colorExpression builder)
      (ShaderBuilder.texCoordExpression builder) (ShaderBuilder.discardExpression builder)
      (ShaderBuilder.rotateWithView builder).
Proof.
  revert builder. induction names as [|attrName names IH]; intros.
  - cbn. rewrite app_nil_r. by destruct builder.
  - cbn [foldl map]. rewrite IH. cbn. by rewrite <- app_assoc.
Qed.

(** [finish] in closed form. *)
Lemma finish_closed symbStyle builder ctxs :
  let textured :=
    isImage (Symbol.symbolType symbStyle) && truthy (Symbol.src symbStyle) in
  let variables := ParsingContext.variables (fragContext ctxs) in
  let fragment := ParsingContext.attributes (fragContext ctxs) in
  let vertex :=
    foldl registerAttribute (ParsingContext.attributes (vertContext ctxs)) fragment in
  let declared :=
    foldl (fun uniforms varName =>
             <[uniformNameForVariable E varName := VariableValue varName]> uniforms)
          (∅ : gmap string UniformValue) variables in
  finish E symbStyle builder ctxs
  = (StyleParseResult.mk
       (ShaderBuilder.mk
          ((ShaderBuilder.uniforms builder
              ++ map (fun varName => "float " +:+ uniformNameForVariable E varName)
                     variables)
             ++ (if textured then ["sampler2D u_texture"] else []))
          (ShaderBuilder.attributes builder
             ++ map (fun attrName => "float a_" +:+ attrName) vertex)
          (ShaderBuilder.varyings builder
             ++ map (fun attrName =>
                       Varying.mk ("v_" +:+ attrName) "float" ("a_" +:+ attrName))
                    fragment)
          (ShaderBuilder.sizeExpression builder)
          (ShaderBuilder.rotationExpression builder)
          (ShaderBuilder.offsetExpression builder)
          (if textured
           then ShaderBuilder.colorExpression builder +:+ textureLookup
           else ShaderBuilder.colorExpression builder)
          (ShaderBuilder.texCoordExpression builder)
          (ShaderBuilder.discardExpression builder)
          (ShaderBuilder.rotateWithView builder))
       (map (fun attributeName =>
               CustomAttribute.mk attributeName (PropertyReader attributeName))
            vertex)
       (if textured
        then <["u_texture" :=
                 Texture (if isUndefined (Symbol.crossOrigin symbStyle)
                          then JStr "anonymous" else Symbol.crossOrigin symbStyle)
                         (Symbol.src symbStyle)]> declared
        else declared),
     {| vertContext :=
          ParsingContext.mk
            (ParsingContext.inFragmentShader (vertContext ctxs))
            (ParsingContext.variables (vertContext ctxs))
            vertex
            (ParsingContext.stringLiteralsMap (vertContext ctxs))
            (ParsingContext.functions (vertContext ctxs));
        fragContext := fragContext ctxs |}).
Proof.
  cbn zeta. unfold finish. rewrite defineUniform_fold. unfold applyTexture.
  destruct (isImage (Symbol.symbolType symbStyle) && truthy (Symbol.src symbStyle));
    cbn [fst snd]; rewrite bridgeAttribute_fold, declareAttribute_fold; cbn;
    rewrite ?app_nil_r; reflexivity.
Qed.

(** The map filled by the loop over the variables: every variable finds a
    closure under its uniform name, and the loop stores nothing else. *)
Lemma declared_uniforms (variables : list string) (uniforms : gmap string UniformValue) :
  let declared :=
    foldl (fun uniforms varName =>
             <[uniformNameForVariable E varName := VariableValue varName]> uniforms)
          uniforms variables in
  (∀ varName, varName ∈ variables →
     ∃ registered,
       registered ∈ variables
       ∧ uniformNameForVariable E registered = uniformNameForVariable E varName
       ∧ declared !! uniformNameForVariable E varName = Some (VariableValue registered))
  ∧ (∀ name value, declared !! name = Some value →
       uniforms !! name = Some value
       ∨ ∃ varName, varName ∈ variables ∧ value = VariableValue varName
                    ∧ name = uniformNameForVariable E varName).
Proof.
  cbn zeta. induction variables as [|last variables IH] using rev_ind.
  - split; [intros ? []%elem_of_nil|]. cbn. auto.
  - rewrite foldl_snoc. destruct IH as [IH1 IH2]. split.
    + intros varName [Hin| ->%list_elem_of_singleton]%elem_of_app.
      * destruct (decide (uniformNameForVariable E last = uniformNameForVariable E varName))
          as [Heq|Hne].
        -- exists last. rewrite Heq, lookup_insert_eq.
           split; [apply elem_of_app; right; by apply list_elem_of_singleton|done].
        -- destruct (IH1 varName Hin) as (registered & ? & ? & ?).
           exists registered. rewrite lookup_insert_ne by done.
           split; [apply elem_of_app; by left|done].
      * exists last. rewrite lookup_insert_eq.
        split; [apply elem_of_app; right; by apply list_elem_of_singleton|done].
    + intros name value.
      destruct (decide (uniformNameForVariable E last = name)) as [<-|Hne].
      * rewrite lookup_insert_eq. intros [= <-]. right. exists last.
        split; [apply elem_of_app; right; by apply list_elem_of_singleton|done].
      * rewrite lookup_insert_ne by done. intros [?|(varName & ? & ? & ?)]%IH2; [by left|].
        right. exists varName. split; [apply elem_of_app; by left|done].
Qed.

Lemma configuredBuilder_fields symbStyle c mask :
  configuredBuilder symbStyle c mask
  = ShaderBuilder.mk [] [] []
      ("vec2(" +:+ Compiled.parsedSize c +:+ ")") (Compiled.parsedRotation c)
      (Compiled.parsedOffset c)
      (maskedColor (Compiled.parsedColor c) (Compiled.parsedOpacity c) mask)
      (Compiled.parsedTexCoord c) "false" (truthy (Symbol.rotateWithView symbStyle)).
Proof. reflexivity. Qed.

(** What [parseLiteralStyle] returns, in terms of its stages. *)
Lemma parseLiteralStyle_result style r ctxs :
  parseLiteralStyle E style = Ok (r, ctxs) →
  ∃ c mask builder before,
    compileValues E (styleValues (Style.symbol style)) = Ok c
    ∧ opacityFilter (Symbol.symbolType (Style.symbol style)) (Compiled.visibleSize c)
      = Ok mask
    ∧ applyFilter E (Style.filter style) (configuredBuilder (Style.symbol style) c mask)
                  (Compiled.contexts c)
      = Ok (builder, before)
    ∧ ShaderBuilder.uniforms builder = []
    ∧ ShaderBuilder.attributes builder = []
    ∧ ShaderBuilder.varyings builder = []
    ∧ ShaderBuilder.colorExpression builder
      = maskedColor (Compiled.parsedColor c) (Compiled.parsedOpacity c) mask
    ∧ fragContext ctxs = fragContext before
    ∧ ParsingContext.attributes (vertContext ctxs)
      = foldl registerAttribute (ParsingContext.attributes (vertContext before))
              (ParsingContext.attributes (fragContext before))
    ∧ finish E (Style.symbol style) builder before = (r, ctxs).
Proof.
  intros (c & mask & builder & before & Hc & Hmask & Hfilter & Hfinish)%parseLiteralStyle_Ok.
  exists c, mask, builder, before.
  destruct (applyFilter_Ok _ _ _ _ _ Hfilter) as [Hsame _].
  rewrite configuredBuilder_fields in Hsame.
  pose proof Hfinish as Hclosed. rewrite finish_closed in Hclosed.
  injection Hclosed as _ Hctxs. injection Hsame as Hu Ha Hv _ _ _ Hcol _ _.
  do 7 (split; [done|]).
  split; [by rewrite <- Hctxs|]. split; [by rewrite <- Hctxs|]. exact Hfinish.
Qed.

(** C1: whenever [parseLiteralStyle] returns, the color expression of the
    returned builder is [vec4(<color>.rgb, <color>.a * <opacity> * <mask>)],
    followed by the texture lookup factor exactly when the shape is 'image'
    with a truthy source. Here <color>, <opacity> and <size> are what
    [expressionToGlsl] returned for the style's color, opacity and size
    (with their defaults) on the fragment context, called in that order, and
    <mask> is the mask of the shape for the visible size [vec2(<size>).x],
    which is "1.0" for 'square' and 'image'. Opacity and mask occur in the
    alpha component only. *)
Theorem color_expression_masks_alpha_only style r ctxs :
  parseLiteralStyle E style = Ok (r, ctxs) →
  ∃ color opacity sizeInFragment mask fragBefore fragBetween fragAfter fragLast,
    ParsingContext.inFragmentShader fragBefore = true
    ∧ expressionToGlsl E fragBefore
        (Values.color (styleValues (Style.symbol style))) (COLOR (ValueTypes E))
      = Ok (color, fragBetween)
    ∧ expressionToGlsl E fragBetween
        (Values.opacity (styleValues (Style.symbol style))) (NUMBER (ValueTypes E))
      = Ok (opacity, fragAfter)
    ∧ expressionToGlsl E fragAfter
        (Values.size (styleValues (Style.symbol style)))
        (Z.lor (NUMBER_ARRAY (ValueTypes E)) (NUMBER (ValueTypes E)))
      = Ok (sizeInFragment, fragLast)
    ∧ opacityFilter (Symbol.symbolType (Style.symbol style))
                    ("vec2(" +:+ sizeInFragment +:+ ").x")
      = Ok mask
    ∧ (Symbol.symbolType (Style.symbol style) = JStr "square"
       ∨ Symbol.symbolType (Style.symbol style) = JStr "image" → mask = "1.0")
    ∧ ShaderBuilder.colorExpression (StyleParseResult.builder r)
      = if isImage (Symbol.symbolType (Style.symbol style))
           && truthy (Symbol.src (Style.symbol style))
        then ("vec4(" +:+ color +:+ ".rgb, " +:+ color +:+ ".a * " +:+ opacity
                +:+ " * " +:+ mask +:+ ")")
               +:+ " * texture2D(u_texture, v_texCoord)"
        else "vec4(" +:+ color +:+ ".rgb, " +:+ color +:+ ".a * " +:+ opacity
               +:+ " * " +:+ mask +:+ ")".
Proof.
  intros (c & mask & builder & before & Hc & Hmask & _ & _ & _ & _ & Hcolor & _ & _ & Hfinish)
    %parseLiteralStyle_result.
  apply compileValues_Ok in Hc
    as (_ & _ & _ & vert4 & ctxs1 & ctxs2 & sizeInFragment
          & _ & _ & _ & _ & H5 & H6 & H7 & Hvisible).
  apply viaFragContext_Ok in H5 as [H5 _]. apply viaFragContext_Ok in H6 as [H6 _].
  apply viaFragContext_Ok in H7 as [H7 _].
  cbn [fragContext] in H5. rewrite Hvisible in Hmask.
  eexists (Compiled.parsedColor c), (Compiled.parsedOpacity c), sizeInFragment, mask,
    _, _, _, _.
  split; [|split; [exact H5|split; [exact H6|split; [exact H7|split; [exact Hmask|split]]]]].
  - reflexivity.
  - intros [Hshape|Hshape]; rewrite Hshape in Hmask; by injection Hmask.
  - rewrite finish_closed in Hfinish. injection Hfinish as <- _. cbn.
    rewrite Hcolor. reflexivity.
Qed.

(** C2: a style whose shape tag is none of 'square', 'circle', 'triangle',
    'image' makes [parseLiteralStyle] throw, whatever the expression compiler
    does: there is no result. If the style values compile, what is thrown is
    the unexpected-symbol-type error, raised by the [switch] before the
    builder is created; otherwise it is what [expressionToGlsl] threw. *)
Theorem unknown_symbol_type_throws style :
  Symbol.symbolType (Style.symbol style) ≠ JStr "square" →
  Symbol.symbolType (Style.symbol style) ≠ JStr "circle" →
  Symbol.symbolType (Style.symbol style) ≠ JStr "triangle" →
  Symbol.symbolType (Style.symbol style) ≠ JStr "image" →
  (∃ e, parseLiteralStyle E style = Throw e)
  ∧ (∀ r ctxs, parseLiteralStyle E style ≠ Ok (r, ctxs))
  ∧ (∀ c, compileValues E (styleValues (Style.symbol style)) = Ok c →
       parseLiteralStyle E style
       = Throw (UnexpectedSymbolType (Symbol.symbolType (Style.symbol style))))
  ∧ (∀ e, compileValues E (styleValues (Style.symbol style)) = Throw e →
       parseLiteralStyle E style = Throw e).
Proof.
  intros Hsquare Hcircle Htriangle Himage.
  assert (Hmask : ∀ visibleSize,
             opacityFilter (Symbol.symbolType (Style.symbol style)) visibleSize
             = Throw (UnexpectedSymbolType (Symbol.symbolType (Style.symbol style)))).
  { intros visibleSize.
    destruct (opacityFilter _ visibleSize) as [mask|e] eqn:Hmask.
    - apply opacityFilter_Ok in Hmask as [?|[?|[?|?]]]; contradiction.
    - unfold opacityFilter in Hmask.
      destruct (Symbol.symbolType (Style.symbol style)) as [| |b|x|s|items|object];
        try (by injection Hmask as <-).
      repeat (destruct (String.eqb s _); [discriminate|]). by injection Hmask as <-. }
  assert (Hthrow : ∀ c, compileValues E (styleValues (Style.symbol style)) = Ok c →
             parseLiteralStyle E style
             = Throw (UnexpectedSymbolType (Symbol.symbolType (Style.symbol style)))).
  { intros c Hc. unfold parseLiteralStyle. rewrite Hc. cbn. by rewrite Hmask. }
  assert (Hfail : ∀ e, compileValues E (styleValues (Style.symbol style)) = Throw e →
             parseLiteralStyle E style = Throw e).
  { intros e He. unfold parseLiteralStyle. by rewrite He. }
  destruct (compileValues E (styleValues (Style.symbol style))) as [c|e] eqn:Hc.
  - split; [eexists; by apply (Hthrow c)|]. split; [|done].
    intros r ctxs. by rewrite (Hthrow c).
  - split; [eexists; by apply (Hfail e)|]. split; [|done].
    intros r ctxs. by rewrite (Hfail e).
Qed.

(** What the code does with the filter: the discard expression of the
    returned builder is ['!' + <compiled filter>] exactly when the filter is
    truthy,
    where <compiled filter> is what [expressionToGlsl] returned for the
    filter, as a boolean, on the fragment context left by the compilation of
    the style values; for every other filter value (absent, or present and
    falsy, such as the literal [false]) it is the default 'false'. *)
Theorem truthy_filter_sets_discard style r ctxs :
  parseLiteralStyle E style = Ok (r, ctxs) →
  if truthy (Style.filter style)
  then ∃ c parsedFilter fragAfter,
         compileValues E (styleValues (Style.symbol style)) = Ok c
         ∧ expressionToGlsl E (fragContext (Compiled.contexts c)) (Style.filter style)
                            (BOOLEAN (ValueTypes E))
           = Ok (parsedFilter, fragAfter)
         ∧ ShaderBuilder.discardExpression (StyleParseResult.builder r)
           = "!" +:+ parsedFilter
  else ShaderBuilder.discardExpression (StyleParseResult.builder r) = "false".
Proof.
  intros (c & mask & builder & before & Hc & Hmask & Hfilter & Hfinish)%parseLiteralStyle_Ok.
  rewrite finish_closed in Hfinish. injection Hfinish as <- _. cbn.
  apply applyFilter_Ok in Hfilter as [_ Hfilter].
  destruct (truthy (Style.filter style)).
  - destruct Hfilter as (parsedFilter & [Hcall _]%viaFragContext_Ok & Hdiscard).
    by exists c, parsedFilter, (fragContext before).
  - by destruct Hfilter as [-> _].
Qed.

(** C10: with shape 'image' and no source (or any falsy one),
    [parseLiteralStyle] behaves exactly as for the same style with shape
    'square': same result, same contexts, same error if the expression
    compiler throws. It returns as soon as the style values and the filter
    compile, so the missing source is not an error; and in what it returns
    no sampler uniform is declared, every entry of [uniforms] is the closure
    of a style variable, and the color expression is the masked color with
    mask "1.0", without texture lookup. *)
Theorem image_without_source_compiles_as_square style :
  Symbol.symbolType (Style.symbol style) = JStr "image" →
  truthy (Symbol.src (Style.symbol style)) = false →
  parseLiteralStyle E style = parseLiteralStyle E (withSymbolType (JStr "square") style)
  ∧ (∀ c builder before,
       compileValues E (styleValues (Style.symbol style)) = Ok c →
       applyFilter E (Style.filter style) (configuredBuilder (Style.symbol style) c "1.0")
                   (Compiled.contexts c)
       = Ok (builder, before) →
       parseLiteralStyle E style = Ok (finish E (Style.symbol style) builder before))
  ∧ (∀ r ctxs,
       parseLiteralStyle E style = Ok (r, ctxs) →
       ("sampler2D u_texture" ∉ ShaderBuilder.uniforms (StyleParseResult.builder r))
       ∧ (∀ name value,
            StyleParseResult.uniforms r !! name = Some value →
            ∃ varName, value = VariableValue varName)
       ∧ ∃ color opacity,
           ShaderBuilder.colorExpression (StyleParseResult.builder r)
           = "vec4(" +:+ color +:+ ".rgb, " +:+ color +:+ ".a * " +:+ opacity
               +:+ " * " +:+ "1.0" +:+ ")").
Proof.
  intros Hshape Hsrc.
  assert (Himage : ∀ visibleSize,
             opacityFilter (Symbol.symbolType (Style.symbol style)) visibleSize = Ok "1.0")
    by (intros; by rewrite Hshape).
  split; [|split].
  - rewrite !parseLiteralStyle_stages. unfold withSymbolType.
    cbn [Style.symbol Style.filter Symbol.symbolType].
    change (styleValues (Symbol.mk _ _ _ _ _ _ _ _ _ _))
      with (styleValues (Style.symbol style)).
    destruct (compileValues E (styleValues (Style.symbol style))) as [c|e]; [|done].
    rewrite Himage. cbn [opacityFilter String.eqb Ascii.eqb Bool.eqb].
    change (configuredBuilder (Symbol.mk _ _ _ _ _ _ _ _ _ _) c "1.0")
      with (configuredBuilder (Style.symbol style) c "1.0").
    destruct (applyFilter E _ _ _) as [[builder before]|e]; [|done].
    rewrite !finish_closed. cbn. rewrite Hshape, Hsrc. reflexivity.
  - intros c builder before Hc Hfilter.
    by rewrite parseLiteralStyle_stages, Hc, Himage, Hfilter.
  - intros r ctxs
      (c & mask & builder & before & Hc & Hmask & _ & Hu & _ & _ & Hcolor & _ & _ & Hfinish)
      %parseLiteralStyle_result.
    rewrite Himage in Hmask. injection Hmask as <-.
    rewrite finish_closed in Hfinish. injection Hfinish as <- _. cbn.
    rewrite Hshape, Hsrc, Hu. cbn. rewrite app_nil_r. split; [|split].
    + intros (varName & Hname & _)%list_elem_of_fmap. discriminate Hname.
    + intros name value [Hempty|(varName & _ & -> & _)]%declared_uniforms.
      * by rewrite lookup_empty in Hempty.
      * by exists varName.
    + exists (Compiled.parsedColor c), (Compiled.parsedOpacity c). by rewrite Hcolor.
Qed.

(** The three cases of the closure of a style variable. *)
Lemma uniformValue_cases current vertContext varName :
  match Style.variables current with
  | None => uniformValue E current vertContext varName = Throw (MissingVariable varName)
  | Some variables =>
      match getProp variables varName with
      | JUndefined =>
          uniformValue E current vertContext varName = Throw (MissingVariable varName)
      | JStr s =>
          uniformValue E current vertContext varName
          = Ok (let '(code, vertContext') := getStringNumberEquivalent E vertContext s in
                (if isUndefined code then missingValue else code, vertContext'))
      | value => uniformValue E current vertContext varName = Ok (value, vertContext)
      end
  end.
Proof.
  unfold uniformValue. destruct (Style.variables current) as [variables|]; [|done].
  destruct (getProp variables varName) as [| |b|x|s|items|object]; try done.
  cbn. by destruct (getStringNumberEquivalent E vertContext s) as [[] ?].
Qed.

(** The calls of [expressionToGlsl] behind a result, in order, each on the
    context the previous one left: four on the vertex context, which starts
    empty; three, and a fourth for a truthy filter, on the fragment context,
    which starts with the [variables] array and the literal table of the
    vertex context and with no attribute. When the function returns, the
    vertex context still refers to that array and that table, as the
    fragment-side calls left them, and its attribute names are those the
    vertex-side calls left, completed by the bridging loop. *)
Lemma parseLiteralStyle_calls style r ctxs :
  parseLiteralStyle E style = Ok (r, ctxs) →
  ∃ parsedSize parsedOffset parsedTexCoord parsedRotation parsedColor parsedOpacity
    sizeInFragment vert1 vert2 vert3 vert4 frag1 frag2 frag3 builder before,
    expressionToGlsl E (ParsingContext.mk false [] [] ∅ ∅)
      (Values.size (styleValues (Style.symbol style)))
      (Z.lor (NUMBER_ARRAY (ValueTypes E)) (NUMBER (ValueTypes E)))
    = Ok (parsedSize, vert1)
    ∧ expressionToGlsl E vert1 (Values.offset (styleValues (Style.symbol style)))
        (NUMBER_ARRAY (ValueTypes E))
      = Ok (parsedOffset, vert2)
    ∧ expressionToGlsl E vert2 (Values.texCoord (styleValues (Style.symbol style)))
        (NUMBER_ARRAY (ValueTypes E))
      = Ok (parsedTexCoord, vert3)
    ∧ expressionToGlsl E vert3 (Values.rotation (styleValues (Style.symbol style)))
        (NUMBER (ValueTypes E))
      = Ok (parsedRotation, vert4)
    ∧ expressionToGlsl E
        (ParsingContext.mk true (ParsingContext.variables vert4) []
                           (ParsingContext.stringLiteralsMap vert4) ∅)
        (Values.color (styleValues (Style.symbol style))) (COLOR (ValueTypes E))
      = Ok (parsedColor, frag1)
    ∧ expressionToGlsl E frag1 (Values.opacity (styleValues (Style.symbol style)))
        (NUMBER (ValueTypes E))
      = Ok (parsedOpacity, frag2)
    ∧ expressionToGlsl E frag2 (Values.size (styleValues (Style.symbol style)))
        (Z.lor (NUMBER_ARRAY (ValueTypes E)) (NUMBER (ValueTypes E)))
      = Ok (sizeInFragment, frag3)
    ∧ (if truthy (Style.filter style)
       then ∃ parsedFilter,
              expressionToGlsl E frag3 (Style.filter style) (BOOLEAN (ValueTypes E))
              = Ok (parsedFilter, fragContext ctxs)
       else fragContext ctxs = frag3)
    ∧ ParsingContext.variables (vertContext ctxs)
      = ParsingContext.variables (fragContext ctxs)
    ∧ ParsingContext.stringLiteralsMap (vertContext ctxs)
      = ParsingContext.stringLiteralsMap (fragContext ctxs)
    ∧ ParsingContext.attributes (vertContext ctxs)
      = foldl registerAttribute (ParsingContext.attributes vert4)
              (ParsingContext.attributes (fragContext ctxs))
    ∧ ShaderBuilder.uniforms builder = []
    ∧ ShaderBuilder.attributes builder = []
    ∧ ShaderBuilder.varyings builder = []
    ∧ fragContext before = fragContext ctxs
    ∧ ParsingContext.attributes (vertContext before) = ParsingContext.attributes vert4
    ∧ finish E (Style.symbol style) builder before = (r, ctxs).
Proof.
  intros (c & mask & builder & before & Hc & _ & Hfilter & Hu & Ha & Hv & _ & Hfrag
            & Hvert & Hfinish)%parseLiteralStyle_result.
  apply compileValues_Ok in Hc
    as (vert1 & vert2 & vert3 & vert4 & ctxs1 & ctxs2 & sizeInFragment
          & H1 & H2 & H3 & H4 & H5 & H6 & H7 & _).
  apply viaFragContext_Ok in H5 as [H5 Hshare5].
  apply viaFragContext_Ok in H6 as [H6 Hshare6].
  apply viaFragContext_Ok in H7 as [H7 Hshare7].
  cbn [fragContext vertContext] in H5, Hshare5.
  apply applyFilter_Ok in Hfilter as [_ Hfilter].
  assert (Hcompiled :
            ParsingContext.variables (vertContext (Compiled.contexts c))
            = ParsingContext.variables (fragContext (Compiled.contexts c))
            ∧ ParsingContext.stringLiteralsMap (vertContext (Compiled.contexts c))
              = ParsingContext.stringLiteralsMap (fragContext (Compiled.contexts c))
            ∧ ParsingContext.attributes (vertContext (Compiled.contexts c))
              = ParsingContext.attributes vert4).
  { by rewrite Hshare7, Hshare6, Hshare5. }
  assert (Hbefore :
            ParsingContext.variables (vertContext before)
            = ParsingContext.variables (fragContext before)
            ∧ ParsingContext.stringLiteralsMap (vertContext before)
              = ParsingContext.stringLiteralsMap (fragContext before)
            ∧ ParsingContext.attributes (vertContext before)
              = ParsingContext.attributes vert4
            ∧ if truthy (Style.filter style)
              then ∃ parsedFilter,
                     expressionToGlsl E (fragContext (Compiled.contexts c))
                       (Style.filter style) (BOOLEAN (ValueTypes E))
                     = Ok (parsedFilter, fragContext before)
              else fragContext before = fragContext (Compiled.contexts c)).
  { destruct (truthy (Style.filter style)).
    - destruct Hfilter as (parsedFilter & [Hcall Hshare]%viaFragContext_Ok & _).
      rewrite Hshare. cbn. destruct Hcompiled as (_ & _ & <-).
      do 3 (split; [done|]). by exists parsedFilter.
    - destruct Hfilter as [_ ->]. by destruct Hcompiled as (? & ? & ?). }
  destruct Hbefore as (Hvariables & Htable & Hknown & Hlast).
  pose proof Hfinish as Hclosed. rewrite finish_closed in Hclosed.
  injection Hclosed as _ Hctxs.
  exists (Compiled.parsedSize c), (Compiled.parsedOffset c), (Compiled.parsedTexCoord c),
    (Compiled.parsedRotation c), (Compiled.parsedColor c), (Compiled.parsedOpacity c),
    sizeInFragment, vert1, vert2, vert3, vert4, (fragContext ctxs1), (fragContext ctxs2),
    (fragContext (Compiled.contexts c)), builder, before.
  rewrite Hfrag.
  do 7 (split; [assumption|]). split; [exact Hlast|].
  split; [by rewrite <- Hctxs|]. split; [by rewrite <- Hctxs|].
  split; [by rewrite Hvert, Hknown|]. done.
Qed.

(** C3, as the code has it. The variables for which uniforms are made are
    the content of the one [variables] array when the last call of
    [expressionToGlsl] returns; every call, vertex-side and fragment-side,
    received the array as the call before it left it, so with a compiler
    that only adds names to it, every name recorded by any of the calls is
    among them. For each of them, in order, one [float] uniform is declared
    (followed by the sampler when a texture is loaded), and its closure is
    stored in [uniforms] under the uniform name (unless that name is the
    sampler's and a texture is loaded). The closure captures the vertex
    context, whose literal table is the one the fragment-side calls used.
    Called later, on the style and context as they then are, the closure
    throws when the style has no variable map or the variable's value in
    it is [undefined], whether the key is absent or present; it converts a
    string value through the literal table of [vertContext], returning
    -9999999 should the conversion give [undefined]; it returns any other
    value as it is. *)
Theorem variable_uniforms style r ctxs :
  parseLiteralStyle E style = Ok (r, ctxs) →
  ∃ parsedSize parsedOffset parsedTexCoord parsedRotation parsedColor parsedOpacity
    sizeInFragment vert1 vert2 vert3 vert4 frag1 frag2 frag3,
    expressionToGlsl E (ParsingContext.mk false [] [] ∅ ∅)
      (Values.size (styleValues (Style.symbol style)))
      (Z.lor (NUMBER_ARRAY (ValueTypes E)) (NUMBER (ValueTypes E)))
    = Ok (parsedSize, vert1)
    ∧ expressionToGlsl E vert1 (Values.offset (styleValues (Style.symbol style)))
        (NUMBER_ARRAY (ValueTypes E))
      = Ok (parsedOffset, vert2)
    ∧ expressionToGlsl E vert2 (Values.texCoord (styleValues (Style.symbol style)))
        (NUMBER_ARRAY (ValueTypes E))
      = Ok (parsedTexCoord, vert3)
    ∧ expressionToGlsl E vert3 (Values.rotation (styleValues (Style.symbol style)))
        (NUMBER (ValueTypes E))
      = Ok (parsedRotation, vert4)
    ∧ expressionToGlsl E
        (ParsingContext.mk true (ParsingContext.variables vert4) []
                           (ParsingContext.stringLiteralsMap vert4) ∅)
        (Values.color (styleValues (Style.symbol style))) (COLOR (ValueTypes E))
      = Ok (parsedColor, frag1)
    ∧ expressionToGlsl E frag1 (Values.opacity (styleValues (Style.symbol style)))
        (NUMBER (ValueTypes E))
      = Ok (parsedOpacity, frag2)
    ∧ expressionToGlsl E frag2 (Values.size (styleValues (Style.symbol style)))
        (Z.lor (NUMBER_ARRAY (ValueTypes E)) (NUMBER (ValueTypes E)))
      = Ok (sizeInFragment, frag3)
    ∧ (if truthy (Style.filter style)
       then ∃ parsedFilter,
              expressionToGlsl E frag3 (Style.filter style) (BOOLEAN (ValueTypes E))
              = Ok (parsedFilter, fragContext ctxs)
       else fragContext ctxs = frag3)
    ∧ ParsingContext.variables (vertContext ctxs)
      = ParsingContext.variables (fragContext ctxs)
    ∧ ParsingContext.stringLiteralsMap (vertContext ctxs)
      = ParsingContext.stringLiteralsMap (fragContext ctxs)
    ∧ ((∀ context expression type glsl context',
          expressionToGlsl E context expression type = Ok (glsl, context') →
          ∀ name,
            name ∈ ParsingContext.variables context →
            name ∈ ParsingContext.variables context') →
       ∀ name,
         name ∈ ParsingContext.variables vert1
         ∨ name ∈ ParsingContext.variables vert2
         ∨ name ∈ ParsingContext.variables vert3
         ∨ name ∈ ParsingContext.variables vert4
         ∨ name ∈ ParsingContext.variables frag1
         ∨ name ∈ ParsingContext.variables frag2
         ∨ name ∈ ParsingContext.variables frag3 →
         name ∈ ParsingContext.variables (fragContext ctxs))
    ∧ ShaderBuilder.uniforms (StyleParseResult.builder r)
      = map (fun varName => "float " +:+ uniformNameForVariable E varName)
            (ParsingContext.variables (fragContext ctxs))
          ++ (if isImage (Symbol.symbolType (Style.symbol style))
                 && truthy (Symbol.src (Style.symbol style))
              then ["sampler2D u_texture"] else [])
    ∧ (∀ varName,
         varName ∈ ParsingContext.variables (fragContext ctxs) →
         isImage (Symbol.symbolType (Style.symbol style))
         && truthy (Symbol.src (Style.symbol style)) = false
         ∨ uniformNameForVariable E varName ≠ "u_texture" →
         ∃ registered,
           registered ∈ ParsingContext.variables (fragContext ctxs)
           ∧ uniformNameForVariable E registered = uniformNameForVariable E varName
           ∧ StyleParseResult.uniforms r !! uniformNameForVariable E varName
             = Some (VariableValue registered))
    ∧ (∀ current vertContext varName,
         match Style.variables current with
         | None =>
             uniformValue E current vertContext varName
             = Throw (MissingVariable varName)
         | Some variables =>
             match getProp variables varName with
             | JUndefined =>
                 uniformValue E current vertContext varName
                 = Throw (MissingVariable varName)
             | JStr s =>
                 uniformValue E current vertContext varName
                 = Ok (let '(code, vertContext') :=
                         getStringNumberEquivalent E vertContext s in
                       (if isUndefined code then JNum (-9999999)%float else code,
                        vertContext'))
             | value =>
                 uniformValue E current vertContext varName = Ok (value, vertContext)
             end
         end).
Proof.
  intros (parsedSize & parsedOffset & parsedTexCoord & parsedRotation & parsedColor
            & parsedOpacity & sizeInFragment & vert1 & vert2 & vert3 & vert4 & frag1
            & frag2 & frag3 & builder & before & H1 & H2 & H3 & H4 & H5 & H6 & H7 & Hlast
            & Hvariables & Htable & _ & Hu & _ & _ & Hfrag & _ & Hfinish)
    %parseLiteralStyle_calls.
  exists parsedSize, parsedOffset, parsedTexCoord, parsedRotation, parsedColor,
    parsedOpacity, sizeInFragment, vert1, vert2, vert3, vert4, frag1, frag2, frag3.
  do 7 (split; [assumption|]). split; [exact Hlast|].
  split; [exact Hvariables|]. split; [exact Htable|]. split.
  { intros Hgrows name Hname.
    assert (Hfrom3 : name ∈ ParsingContext.variables frag3 →
                     name ∈ ParsingContext.variables (fragContext ctxs)).
    { destruct (truthy (Style.filter style)).
      - destruct Hlast as [parsedFilter Hcall]. apply (Hgrows _ _ _ _ _ Hcall).
      - by rewrite Hlast. }
    pose proof (Hgrows _ _ _ _ _ H2 name) as H12.
    pose proof (Hgrows _ _ _ _ _ H3 name) as H23.
    pose proof (Hgrows _ _ _ _ _ H4 name) as H34.
    pose proof (Hgrows _ _ _ _ _ H5 name) as H45. cbn in H45.
    pose proof (Hgrows _ _ _ _ _ H6 name) as H56.
    pose proof (Hgrows _ _ _ _ _ H7 name) as H67.
    destruct Hname as [?|[?|[?|[?|[?|[?|?]]]]]]; auto 10. }
  rewrite finish_closed in Hfinish. injection Hfinish as <- _. cbn.
  rewrite Hu, Hfrag. split; [done|]. split; [|apply uniformValue_cases].
  intros varName Hin Hfree.
  destruct (declared_uniforms (ParsingContext.variables (fragContext ctxs)) ∅)
    as [Hdeclared _].
  destruct (Hdeclared varName Hin) as (registered & ? & ? & Hlookup).
  exists registered. split; [done|]. split; [done|].
  destruct (isImage _ && truthy _); [|done].
  destruct Hfree as [?|Hfree]; [done|]. by rewrite lookup_insert_ne.
Qed.

(** The three cases of the callback of an attribute entry. *)
Lemma attributeCallback_cases vertContext attributeName props :
  attributeCallback E vertContext (PropertyReader attributeName) props
  = match getProp props attributeName with
    | JUndefined => (missingValue, vertContext)
    | JStr s =>
        let '(code, vertContext') := getStringNumberEquivalent E vertContext s in
        (if isUndefined code then missingValue else code, vertContext')
    | value => (value, vertContext)
    end.
Proof.
  unfold attributeCallback. destruct (getProp props attributeName) as [| |b|x|s|items|object];
    try done.
  by destruct (getStringNumberEquivalent E vertContext s) as [[] ?].
Qed.

(** C7: the names referenced fragment-side are the attribute names of the
    fragment context when the last call of [expressionToGlsl] returns; the
    fragment context starts without any, and the vertex-side names known
    when the bridging loop starts are those the four vertex-side calls
    left. When [parseLiteralStyle] returns, the vertex-side list is those
    known names followed by the fragment-side names that were not among
    them, each once, and the vertex context refers to the literal table the
    fragment-side calls used. For every name referenced fragment-side: it is
    in the vertex-side list; the builder has the varying [v_<name>] of type
    [float] assigned from [a_<name>] and the attribute [float a_<name>];
    the result has an entry for the name, whose callback reads the property
    of that name, returns -9999999 when it is [undefined], converts a
    string through the literal table of [vertContext] (returning -9999999
    should the conversion give [undefined]) and returns any other value as
    it is. *)
Theorem fragment_attributes_are_bridged style r ctxs :
  parseLiteralStyle E style = Ok (r, ctxs) →
  ∃ parsedSize parsedOffset parsedTexCoord parsedRotation parsedColor parsedOpacity
    sizeInFragment vert1 vert2 vert3 vert4 frag1 frag2 frag3 added,
    expressionToGlsl E (ParsingContext.mk false [] [] ∅ ∅)
      (Values.size (styleValues (Style.symbol style)))
      (Z.lor (NUMBER_ARRAY (ValueTypes E)) (NUMBER (ValueTypes E)))
    = Ok (parsedSize, vert1)
    ∧ expressionToGlsl E vert1 (Values.offset (styleValues (Style.symbol style)))
        (NUMBER_ARRAY (ValueTypes E))
      = Ok (parsedOffset, vert2)
    ∧ expressionToGlsl E vert2 (Values.texCoord (styleValues (Style.symbol style)))
        (NUMBER_ARRAY (ValueTypes E))
      = Ok (parsedTexCoord, vert3)
    ∧ expressionToGlsl E vert3 (Values.rotation (styleValues (Style.symbol style)))
        (NUMBER (ValueTypes E))
      = Ok (parsedRotation, vert4)
    ∧ expressionToGlsl E
        (ParsingContext.mk true (ParsingContext.variables vert4) []
                           (ParsingContext.stringLiteralsMap vert4) ∅)
        (Values.color (styleValues (Style.symbol style))) (COLOR (ValueTypes E))
      = Ok (parsedColor, frag1)
    ∧ expressionToGlsl E frag1 (Values.opacity (styleValues (Style.symbol style)))
        (NUMBER (ValueTypes E))
      = Ok (parsedOpacity, frag2)
    ∧ expressionToGlsl E frag2 (Values.size (styleValues (Style.symbol style)))
        (Z.lor (NUMBER_ARRAY (ValueTypes E)) (NUMBER (ValueTypes E)))
      = Ok (sizeInFragment, frag3)
    ∧ (if truthy (Style.filter style)
       then ∃ parsedFilter,
              expressionToGlsl E frag3 (Style.filter style) (BOOLEAN (ValueTypes E))
              = Ok (parsedFilter, fragContext ctxs)
       else fragContext ctxs = frag3)
    ∧ ParsingContext.stringLiteralsMap (vertContext ctxs)
      = ParsingContext.stringLiteralsMap (fragContext ctxs)
    ∧ ParsingContext.attributes (vertContext ctxs)
      = ParsingContext.attributes vert4 ++ added
    ∧ NoDup added
    ∧ (∀ name,
         name ∈ added
         ↔ name ∈ ParsingContext.attributes (fragContext ctxs)
           ∧ name ∉ ParsingContext.attributes vert4)
    ∧ ∀ attrName,
        attrName ∈ ParsingContext.attributes (fragContext ctxs) →
        attrName ∈ ParsingContext.attributes (vertContext ctxs)
        ∧ Varying.mk ("v_" +:+ attrName) "float" ("a_" +:+ attrName)
          ∈ ShaderBuilder.varyings (StyleParseResult.builder r)
        ∧ ("float a_" +:+ attrName)
          ∈ ShaderBuilder.attributes (StyleParseResult.builder r)
        ∧ CustomAttribute.mk attrName (PropertyReader attrName)
          ∈ StyleParseResult.attributes r
        ∧ ∀ vertContext props,
            attributeCallback E vertContext (PropertyReader attrName) props
            = match getProp props attrName with
              | JUndefined => (JNum (-9999999)%float, vertContext)
              | JStr s =>
                  let '(code, vertContext') :=
                    getStringNumberEquivalent E vertContext s in
                  (if isUndefined code then JNum (-9999999)%float else code,
                   vertContext')
              | value => (value, vertContext)
              end.
Proof.
  intros (parsedSize & parsedOffset & parsedTexCoord & parsedRotation & parsedColor
            & parsedOpacity & sizeInFragment & vert1 & vert2 & vert3 & vert4 & frag1
            & frag2 & frag3 & builder & before & H1 & H2 & H3 & H4 & H5 & H6 & H7 & Hlast
            & _ & Htable & Hvert & _ & Ha & Hv & Hfrag & Hknown & Hfinish)
    %parseLiteralStyle_calls.
  destruct (registerAttribute_fold (ParsingContext.attributes (fragContext ctxs))
              (ParsingContext.attributes vert4))
    as (added & Hfold & Hnodup & Hadded).
  rewrite Hfold in Hvert.
  exists parsedSize, parsedOffset, parsedTexCoord, parsedRotation, parsedColor,
    parsedOpacity, sizeInFragment, vert1, vert2, vert3, vert4, frag1, frag2, frag3, added.
  do 7 (split; [assumption|]). split; [exact Hlast|].
  split; [exact Htable|]. split; [exact Hvert|]. split; [exact Hnodup|].
  split; [exact Hadded|].
  intros attrName Hin.
  assert (Hregistered : attrName ∈ ParsingContext.attributes (vertContext ctxs)).
  { rewrite Hvert, elem_of_app, Hadded.
    destruct (decide (attrName ∈ ParsingContext.attributes vert4)); auto. }
  split; [exact Hregistered|].
  rewrite Hvert, <- Hfold in Hregistered.
  rewrite finish_closed in Hfinish. injection Hfinish as <- _. cbn.
  rewrite Ha, Hv, Hfrag, Hknown. cbn. split; [|split; [|split]].
  - by apply (list_elem_of_fmap_2
                (fun attrName => Varying.mk ("v_" +:+ attrName) "float" ("a_" +:+ attrName))).
  - by apply (list_elem_of_fmap_2 (fun attrName => "float a_" +:+ attrName)).
  - by apply (list_elem_of_fmap_2
                (fun attributeName =>
                   CustomAttribute.mk attributeName (PropertyReader attributeName))).
  - intros vertContext props. apply attributeCallback_cases.
Qed.

End Properties.

(** ** Concrete styles *)

(** Evaluates a closed compilation. *)
Ltac run := vm_compute; reflexivity.

Lemma remember_elem name names : name ∈ Sample.remember name names.
Proof.
  unfold Sample.remember. case_bool_decide; [done|].
  apply elem_of_app. right. by apply list_elem_of_singleton.
Qed.

Lemma remember_keeps name other names : name ∈ names → name ∈ Sample.remember other names.
Proof.
  intros Hin. unfold Sample.remember. case_bool_decide; [done|].
  apply elem_of_app. by left.
Qed.

(** The stand-in compiler only adds names to [variables]. *)
Lemma sample_compiler_only_adds context expression type glsl context' :
  expressionToGlsl Sample.expressions context expression type = Ok (glsl, context') →
  ∀ name,
    name ∈ ParsingContext.variables context →
    name ∈ ParsingContext.variables context'.
Proof.
  cbn. unfold Sample.expressionToGlsl, Sample.unsupported. intros H name Hin.
  repeat case_match; simplify_eq; cbn; auto using remember_keeps.
Qed.

(** [{symbol: {symbolType: 'square'}}]: every default applies, and the mask
    is "1.0". *)
Example bare_square_compiles :
  ∃ r ctxs,
    parseLiteralStyle Sample.expressions (Sample.bare (JStr "square")) = Ok (r, ctxs)
    ∧ StyleParseResult.builder r
      = ShaderBuilder.mk [] [] [] "vec2(1.0)" "0.0" "vec2(0.0, 0.0)"
          "vec4(vec4(1.0, 1.0, 1.0, 1.0).rgb, vec4(1.0, 1.0, 1.0, 1.0).a * 1.0 * 1.0)"
          "vec4(0.0, 0.0, 1.0, 1.0)" "false" false.
Proof. eexists _, _. split; run. Qed.

(** [Sample.rich]: a circle whose size is a style variable, whose color,
    opacity, rotation and filter read feature attributes. *)
Example rich_compiles :
  ∃ r ctxs,
    parseLiteralStyle Sample.expressions Sample.rich = Ok (r, ctxs)
    ∧ StyleParseResult.builder r
      = ShaderBuilder.mk
          ["float u_level"]
          ["float a_heading"; "float a_speed"; "float a_visible"]
          [Varying.mk "v_speed" "float" "a_speed";
           Varying.mk "v_visible" "float" "a_visible"]
          "vec2(u_level)" "a_heading" "vec2(0.0, 0.0)"
          ("vec4(v_speed.rgb, v_speed.a * v_speed * "
             +:+ "(1.0-smoothstep(1.-4./vec2(u_level).x,1.,"
             +:+ "dot(v_quadCoord-.5,v_quadCoord-.5)*4.)))")
          "vec4(0.0, 0.0, 1.0, 1.0)" "!v_visible" false
    ∧ StyleParseResult.attributes r
      = [CustomAttribute.mk "heading" (PropertyReader "heading");
         CustomAttribute.mk "speed" (PropertyReader "speed");
         CustomAttribute.mk "visible" (PropertyReader "visible")]
    ∧ StyleParseResult.uniforms r = {[ "u_level" := VariableValue "level" ]}
    ∧ ParsingContext.attributes (vertContext ctxs) = ["heading"; "speed"; "visible"]
    ∧ ParsingContext.attributes (fragContext ctxs) = ["speed"; "visible"].
Proof. eexists _, _. split; [run|]. vm_compute. evaluated. Qed.

(** An image with a source: the sampler is declared and the color is
    multiplied by the texel, after the mask and the opacity. *)
Example textured_image_compiles :
  ∃ r ctxs,
    parseLiteralStyle Sample.expressions
      (Style.mk JUndefined None
         (Symbol.mk JUndefined (JStr "image") (JStr "marker.png") JUndefined JUndefined
                    JUndefined JUndefined JUndefined JUndefined JUndefined))
    = Ok (r, ctxs)
    ∧ ShaderBuilder.uniforms (StyleParseResult.builder r) = ["sampler2D u_texture"]
    ∧ ShaderBuilder.colorExpression (StyleParseResult.builder r)
      = "vec4(vec4(1.0, 1.0, 1.0, 1.0).rgb, vec4(1.0, 1.0, 1.0, 1.0).a * 1.0 * 1.0)"
          +:+ " * texture2D(u_texture, v_texCoord)"
    ∧ StyleParseResult.uniforms r
      = {[ "u_texture" := Texture (JStr "anonymous") (JStr "marker.png") ]}.
Proof. eexists _, _. split; [run|]. vm_compute. evaluated. Qed.

(** The callback of an attribute, on features with and without the
    property. *)
Example speed_callback :
  let context := ParsingContext.mk false [] ["speed"] ∅ ∅ in
  attributeCallback Sample.expressions context (PropertyReader "speed") (plainObject ∅)
  = (JNum (-9999999)%float, context)
  ∧ attributeCallback Sample.expressions context (PropertyReader "speed")
      (plainObject {[ "speed" := JNum 2%float ]})
    = (JNum 2%float, context)
  ∧ fst (attributeCallback Sample.expressions context (PropertyReader "speed")
           (plainObject {[ "speed" := JStr "fast" ]}))
    = JNum 0%float.
Proof. vm_compute. evaluated. Qed.

(** A name that a plain object inherits is read like one of its own: the
    callback of an attribute named [toString] returns the inherited function
    on a feature without properties, not -9999999, and the closure of a
    variable named [constructor] does not throw on [{variables: {}}]. A name
    that is neither owned nor inherited reads as [undefined]. *)
Example inherited_names_are_read :
  let context := ParsingContext.mk false [] [] ∅ ∅ in
  let style := Style.mk JUndefined (Some (plainObject ∅))
                        (Style.symbol (Sample.bare (JStr "square"))) in
  attributeCallback Sample.expressions context (PropertyReader "toString") (plainObject ∅)
  = (JObject "Object.prototype.toString", context)
  ∧ uniformValue Sample.expressions style context "constructor"
    = Ok (JObject "Object", context)
  ∧ uniformValue Sample.expressions style context "level"
    = Throw (MissingVariable "level")
  ∧ getProp (plainObject {[ "toString" := JNum 1%float ]}) "toString" = JNum 1%float.
Proof. vm_compute. evaluated. Qed.

(** C1, on [Sample.rich]. *)
Lemma color_expression_witness :
  ∃ r ctxs,
    parseLiteralStyle Sample.expressions Sample.rich = Ok (r, ctxs)
    ∧ ∃ color opacity mask,
        ShaderBuilder.colorExpression (StyleParseResult.builder r)
        = "vec4(" +:+ color +:+ ".rgb, " +:+ color +:+ ".a * " +:+ opacity
            +:+ " * " +:+ mask +:+ ")".
Proof.
  assert (∃ r ctxs, parseLiteralStyle Sample.expressions Sample.rich = Ok (r, ctxs))
    as (r & ctxs & H) by (eexists _, _; run).
  exists r, ctxs. split; [exact H|].
  destruct (color_expression_masks_alpha_only _ _ _ _ H)
    as (color & opacity & _ & mask & _ & _ & _ & _ & _ & _ & _ & _ & _ & _ & Hcolor).
  exists color, opacity, mask. exact Hcolor.
Defined.

(** C2, on [{symbol: {symbolType: 'hexagon'}}]. *)
Lemma unknown_symbol_type_witness :
  Symbol.symbolType (Style.symbol (Sample.bare (JStr "hexagon"))) ≠ JStr "square"
  ∧ Symbol.symbolType (Style.symbol (Sample.bare (JStr "hexagon"))) ≠ JStr "circle"
  ∧ Symbol.symbolType (Style.symbol (Sample.bare (JStr "hexagon"))) ≠ JStr "triangle"
  ∧ Symbol.symbolType (Style.symbol (Sample.bare (JStr "hexagon"))) ≠ JStr "image"
  ∧ parseLiteralStyle Sample.expressions (Sample.bare (JStr "hexagon"))
    = Throw (UnexpectedSymbolType (JStr "hexagon")).
Proof.
  assert (H1 : Symbol.symbolType (Style.symbol (Sample.bare (JStr "hexagon")))
               ≠ JStr "square") by discriminate.
  assert (H2 : Symbol.symbolType (Style.symbol (Sample.bare (JStr "hexagon")))
               ≠ JStr "circle") by discriminate.
  assert (H3 : Symbol.symbolType (Style.symbol (Sample.bare (JStr "hexagon")))
               ≠ JStr "triangle") by discriminate.
  assert (H4 : Symbol.symbolType (Style.symbol (Sample.bare (JStr "hexagon")))
               ≠ JStr "image") by discriminate.
  do 4 (split; [assumption|]).
  destruct (unknown_symbol_type_throws Sample.expressions _ H1 H2 H3 H4)
    as (_ & _ & Hthrow & _).
  eapply Hthrow. run.
Defined.

(** C3, as stated, fails on
    [{variables: {level: undefined},
      symbol: {symbolType: 'square', size: ['var', 'level']}}]: the key is
    present with an undefined value, and the closure registered for the
    variable throws instead of returning -9999999. *)
Lemma undefined_variable_value_throws :
  let style :=
    Style.mk JUndefined (Some (plainObject {[ "level" := JUndefined ]}))
      (Symbol.mk (JArr [JStr "var"; JStr "level"]) (JStr "square") JUndefined
                 JUndefined JUndefined JUndefined JUndefined JUndefined JUndefined
                 JUndefined) in
  ∃ r ctxs variables,
    parseLiteralStyle Sample.expressions style = Ok (r, ctxs)
    ∧ StyleParseResult.uniforms r !! "u_level" = Some (VariableValue "level")
    ∧ Style.variables style = Some variables
    ∧ ownProperties variables !! "level" = Some JUndefined
    ∧ uniformValue Sample.expressions style (vertContext ctxs) "level"
      = Throw (MissingVariable "level")
    ∧ uniformValue Sample.expressions style (vertContext ctxs) "level"
      ≠ Ok (JNum (-9999999)%float, vertContext ctxs).
Proof.
  cbv zeta. eexists _, _, _. split; [run|]. vm_compute. evaluated.
Qed.

(** C3, on [sampleRotated] and the stand-in compiler, which only adds
    names: the variable [angle], recorded by the fourth vertex-side call
    only, gets its uniform and its closure, which converts the string
    through the table of [vertContext]. *)
Lemma variable_uniforms_witness :
  ∃ r ctxs,
    parseLiteralStyle Sample.expressions sampleRotated = Ok (r, ctxs)
    ∧ "angle" ∈ ParsingContext.variables (fragContext ctxs)
    ∧ ParsingContext.variables (vertContext ctxs)
      = ParsingContext.variables (fragContext ctxs)
    ∧ ParsingContext.stringLiteralsMap (vertContext ctxs)
      = ParsingContext.stringLiteralsMap (fragContext ctxs)
    ∧ ShaderBuilder.uniforms (StyleParseResult.builder r)
      = map (fun varName => "float " +:+ Sample.uniformNameForVariable varName)
            (ParsingContext.variables (fragContext ctxs))
    ∧ (∃ registered,
         registered ∈ ParsingContext.variables (fragContext ctxs)
         ∧ Sample.uniformNameForVariable registered = "u_angle"
         ∧ StyleParseResult.uniforms r !! "u_angle" = Some (VariableValue registered))
    ∧ uniformValue Sample.expressions sampleRotated (vertContext ctxs) "angle"
      = Ok (let '(code, vertContext') :=
              Sample.getStringNumberEquivalent (vertContext ctxs) "steep" in
            (if isUndefined code then JNum (-9999999)%float else code, vertContext')).
Proof.
  assert (∃ r ctxs, parseLiteralStyle Sample.expressions sampleRotated = Ok (r, ctxs))
    as (r & ctxs & H) by (eexists _, _; run).
  exists r, ctxs. split; [exact H|].
  destruct (variable_uniforms _ _ _ _ H)
    as (parsedSize & parsedOffset & parsedTexCoord & parsedRotation & parsedColor
          & parsedOpacity & sizeInFragment & vert1 & vert2 & vert3 & vert4 & frag1
          & frag2 & frag3 & _ & _ & _ & Hrotation & _ & _ & _ & _ & Hvariables & Htable
          & Hrecorded & Hdeclared & Hregistered & Hcall).
  assert (Hangle : "angle" ∈ ParsingContext.variables (fragContext ctxs)).
  { apply (Hrecorded sample_compiler_only_adds). do 3 right. left.
    injection Hrotation as _ <-. apply remember_elem. }
  split; [exact Hangle|]. split; [exact Hvariables|]. split; [exact Htable|].
  split; [rewrite Hdeclared; apply app_nil_r|].
  split; [exact (Hregistered "angle" Hangle (or_introl eq_refl))|].
  exact (Hcall sampleRotated (vertContext ctxs) "angle").
Defined.

(** C7, on [Sample.rich] and its attribute [speed]. *)
Lemma fragment_attributes_witness :
  ∃ r ctxs,
    parseLiteralStyle Sample.expressions Sample.rich = Ok (r, ctxs)
    ∧ "speed" ∈ ParsingContext.attributes (fragContext ctxs)
    ∧ "speed" ∈ ParsingContext.attributes (vertContext ctxs)
    ∧ Varying.mk "v_speed" "float" "a_speed"
      ∈ ShaderBuilder.varyings (StyleParseResult.builder r)
    ∧ "float a_speed" ∈ ShaderBuilder.attributes (StyleParseResult.builder r)
    ∧ CustomAttribute.mk "speed" (PropertyReader "speed") ∈ StyleParseResult.attributes r
    ∧ ParsingContext.stringLiteralsMap (vertContext ctxs)
      = ParsingContext.stringLiteralsMap (fragContext ctxs)
    ∧ attributeCallback Sample.expressions (vertContext ctxs) (PropertyReader "speed")
        (plainObject ∅)
      = (JNum (-9999999)%float, vertContext ctxs).
Proof.
  eexists _, _. split; [run|].
  match goal with
  | |- ?inFragment ∧ _ =>
      assert (Hin : inFragment) by (apply list_elem_of_In; vm_compute; auto)
  end.
  split; [exact Hin|].
  destruct (fragment_attributes_are_bridged Sample.expressions Sample.rich _ _
              ltac:(run))
    as (parsedSize & parsedOffset & parsedTexCoord & parsedRotation & parsedColor
          & parsedOpacity & sizeInFragment & vert1 & vert2 & vert3 & vert4 & frag1
          & frag2 & frag3 & added & _ & _ & _ & _ & _ & _ & _ & _ & Htable & _ & _ & _
          & Hbridged).
  destruct (Hbridged "speed" Hin) as (Hvertex & Hvarying & Hattribute & Hentry & Hcall).
  do 4 (split; [assumption|]). split; [exact Htable|].
  exact (Hcall (vertContext _) (plainObject ∅)).
Defined.

(** C8, on [{filter: false, symbol: {symbolType: 'square'}}]: the style
    contains a filter, the literal [false], which compiles to "false"; the
    function tests the filter for truthiness, so the filter is not compiled
    and the discard expression is not its negation "!false" but stays the
    default "false". *)
Lemma literal_false_filter_is_ignored :
  let style := Style.mk (JBool false) None (Style.symbol (Sample.bare (JStr "square"))) in
  ∃ r ctxs,
    parseLiteralStyle Sample.expressions style = Ok (r, ctxs)
    ∧ isUndefined (Style.filter style) = false
    ∧ Sample.expressionToGlsl (fragContext ctxs) (Style.filter style)
        (BOOLEAN Sample.ValueTypes)
      = Ok ("false", fragContext ctxs)
    ∧ ShaderBuilder.discardExpression (StyleParseResult.builder r) = "false"
    ∧ ShaderBuilder.discardExpression (StyleParseResult.builder r) ≠ "!" +:+ "false".
Proof.
  cbv zeta. eexists _, _. split; [run|]. vm_compute. evaluated.
Qed.

(** On [Sample.rich], whose filter is [['get', 'visible']], the discard
    expression is a negation. *)
Lemma truthy_filter_witness :
  ∃ r ctxs,
    parseLiteralStyle Sample.expressions Sample.rich = Ok (r, ctxs)
    ∧ ∃ parsedFilter,
        ShaderBuilder.discardExpression (StyleParseResult.builder r)
        = "!" +:+ parsedFilter.
Proof.
  assert (∃ r ctxs, parseLiteralStyle Sample.expressions Sample.rich = Ok (r, ctxs))
    as (r & ctxs & H) by (eexists _, _; run).
  exists r, ctxs. split; [exact H|].
  destruct (truthy_filter_sets_discard _ _ _ _ H) as (_ & parsedFilter & _ & _ & _ & Hd).
  by exists parsedFilter.
Defined.

(** C10, on [{symbol: {symbolType: 'image'}}]. *)
Lemma image_without_source_witness :
  Symbol.symbolType (Style.symbol (Sample.bare (JStr "image"))) = JStr "image"
  ∧ truthy (Symbol.src (Style.symbol (Sample.bare (JStr "image")))) = false
  ∧ parseLiteralStyle Sample.expressions (Sample.bare (JStr "image"))
    = parseLiteralStyle Sample.expressions
        (withSymbolType (JStr "square") (Sample.bare (JStr "image")))
  ∧ ∃ r ctxs,
      parseLiteralStyle Sample.expressions (Sample.bare (JStr "image")) = Ok (r, ctxs)
      ∧ "sampler2D u_texture" ∉ ShaderBuilder.uniforms (StyleParseResult.builder r).
Proof.
  split; [reflexivity|]. split; [reflexivity|].
  destruct (image_without_source_compiles_as_square Sample.expressions
              (Sample.bare (JStr "image")) eq_refl eq_refl) as (Hsame & _ & Hresult).
  split; [exact Hsame|].
  assert (∃ r ctxs,
            parseLiteralStyle Sample.expressions (Sample.bare (JStr "image"))
            = Ok (r, ctxs))
    as (r & ctxs & H) by (eexists _, _; run).
  exists r, ctxs. split; [exact H|]. by destruct (Hresult r ctxs H) as [? _].
Defined.

(** * Further properties *)

(** ** Lines of joined text *)

Lemma lines_not_nil (s : string) : lines s ≠ [].
Proof.
  induction s as [|c s IH]; [done|]. cbn [lines].
  destruct (Ascii.eqb c "010"); [done|]. by destruct (lines s).
Qed.

Lemma lines_append (a b : string) :
  singleLine a = true →
  lines (a +:+ b) = match lines b with
                    | [] => [a]
                    | l :: ls => (a +:+ l) :: ls
                    end.
Proof.
  induction a as [|c a IH]; intros Ha.
  - rewrite append_empty_l. destruct (lines b) as [|l ls] eqn:Hb; [|done].
    by destruct (lines_not_nil b).
  - cbn [singleLine] in Ha. apply andb_true_iff in Ha as [Hc Ha].
    rewrite append_cons. cbn [lines]. apply negb_true_iff in Hc. rewrite Hc.
    rewrite (IH Ha). destruct (lines b) as [|l ls] eqn:Hb; [|done].
    by destruct (lines_not_nil b).
Qed.

Lemma lines_singleLine (a : string) : singleLine a = true → lines a = [a].
Proof.
  intros Ha. rewrite <- (append_empty_r a) at 1. rewrite (lines_append a "" Ha).
  cbn. by rewrite append_empty_r.
Qed.

Lemma lines_join (ls : list string) :
  Forall (fun l => singleLine l = true) ls → ls ≠ [] → lines (join LF ls) = ls.
Proof.
  induction ls as [|x [|y rest] IH]; intros Hall Hne; [done| |].
  - apply lines_singleLine. by inversion Hall.
  - rewrite join_cons_cons. inversion Hall as [|? ? Hx Hrest]; subst.
    rewrite (lines_append _ _ Hx).
    change (lines (LF +:+ join LF (y :: rest))) with ("" :: lines (join LF (y :: rest))).
    rewrite IH by done. by rewrite append_empty_r.
Qed.

Lemma singleLine_append (a b : string) :
  singleLine (a +:+ b) = singleLine a && singleLine b.
Proof.
  induction a as [|c a IH]; [done|].
  rewrite append_cons. cbn [singleLine]. by rewrite IH, andb_assoc.
Qed.

Lemma block_not_nil (l : list string) : block l ≠ [].
Proof. by destruct l. Qed.

Lemma join_block (l : list string) : join LF (block l) = join LF l.
Proof. by destruct l. Qed.

Lemma join_app (sep : string) (l1 l2 : list string) :
  l1 ≠ [] → l2 ≠ [] → join sep (l1 ++ l2) = join sep l1 +:+ sep +:+ join sep l2.
Proof.
  intros H1 H2. induction l1 as [|x [|y l1] IH]; [done| |].
  - destruct l2; [done|]. reflexivity.
  - change ((x :: y :: l1) ++ l2) with (x :: y :: (l1 ++ l2)).
    rewrite !join_cons_cons. change (y :: l1 ++ l2) with ((y :: l1) ++ l2).
    rewrite IH by done. by rewrite !append_assoc.
Qed.

Lemma app_not_nil_l {A} (l1 l2 : list A) : l1 ≠ [] → l1 ++ l2 ≠ [].
Proof. by destruct l1. Qed.

(** ** The programs line by line *)

Lemma vertex_program_joined (forHitDetection : bool) (this : ShaderBuilder.t) :
  ShaderBuilder.eval (ShaderBuilder.getSymbolVertexShader forHitDetection) this
  = join LF (vertexLines forHitDetection this).
Proof.
  unfold vertexLines.
  rewrite !join_app;
    try first [discriminate | apply block_not_nil
              | apply app_not_nil_l; first [discriminate | apply block_not_nil]].
  rewrite !join_block.
  unfold ShaderBuilder.eval, ShaderBuilder.getSymbolVertexShader, renderedAttributes,
    renderedVaryings, vertexMainLines. cbn [fst].
  unfold ShaderBuilder.vertexUniformsHeader, ShaderBuilder.vertexAttributesHeader,
    ShaderBuilder.varyingsHeader, ShaderBuilder.vertexMainOpening,
    ShaderBuilder.vertexHalfSize, ShaderBuilder.vertexOffset, ShaderBuilder.vertexAngle,
    ShaderBuilder.vertexQuadOffsets, ShaderBuilder.vertexCoordinates,
    ShaderBuilder.mainClosing, text.
  cbn [join]. rewrite !append_assoc, !append_empty_l. reflexivity.
Qed.

Lemma fragment_program_joined (forHitDetection : bool) (this : ShaderBuilder.t) :
  ShaderBuilder.eval (ShaderBuilder.getSymbolFragmentShader forHitDetection) this
  = join LF (fragmentLines forHitDetection this).
Proof.
  unfold fragmentLines.
  rewrite !join_app;
    try first [discriminate | apply block_not_nil
              | apply app_not_nil_l; first [discriminate | apply block_not_nil]].
  rewrite !join_block.
  unfold ShaderBuilder.eval, ShaderBuilder.getSymbolFragmentShader, renderedVaryings,
    fragmentMainLines.
  cbn [fst].
  unfold ShaderBuilder.fragmentUniformsHeader, ShaderBuilder.varyingsHeader,
    ShaderBuilder.fragmentMainOpening, ShaderBuilder.fragmentColor,
    ShaderBuilder.fragmentPremultiply, ShaderBuilder.hitDetectionTail,
    ShaderBuilder.mainClosing, text.
  cbn [join]. rewrite !append_assoc, !append_empty_l. reflexivity.
Qed.

Lemma Forall_block (P : string → Prop) (l : list string) :
  P "" → Forall P l → Forall P (block l).
Proof. intros Hempty Hl. destruct l; [by constructor|done]. Qed.

Lemma Forall_map_singleLine {A} (f : A → string) (ok : A → bool) (l : list A) :
  (∀ x, ok x = true → singleLine (f x) = true) →
  forallb ok l = true →
  Forall (fun line => singleLine line = true) (map f l).
Proof.
  intros Hf Hl. apply Forall_forall. intros line (x & -> & Hx)%list_elem_of_fmap.
  apply Hf. rewrite forallb_forall in Hl. by apply Hl, list_elem_of_In.
Qed.

Lemma singleLineBuilder_fields (this : ShaderBuilder.t) :
  singleLineBuilder this = true →
  forallb singleLine (ShaderBuilder.uniforms this) = true
  ∧ forallb singleLine (ShaderBuilder.attributes this) = true
  ∧ forallb (fun varying =>
               singleLine (Varying.name varying)
               && singleLine (Varying.type varying)
               && singleLine (Varying.expression varying))
            (ShaderBuilder.varyings this) = true
  ∧ singleLine (ShaderBuilder.sizeExpression this) = true
  ∧ singleLine (ShaderBuilder.rotationExpression this) = true
  ∧ singleLine (ShaderBuilder.offsetExpression this) = true
  ∧ singleLine (ShaderBuilder.colorExpression this) = true
  ∧ singleLine (ShaderBuilder.texCoordExpression this) = true
  ∧ singleLine (ShaderBuilder.discardExpression this) = true.
Proof.
  unfold singleLineBuilder. rewrite !andb_true_iff. tauto.
Qed.

Lemma rendered_singleLine (forHitDetection : bool) (this : ShaderBuilder.t) :
  singleLineBuilder this = true →
  forallb singleLine (renderedAttributes forHitDetection this) = true
  ∧ forallb (fun varying =>
               singleLine (Varying.name varying)
               && singleLine (Varying.type varying)
               && singleLine (Varying.expression varying))
            (renderedVaryings forHitDetection this) = true.
Proof.
  intros (_ & Ha & Hv & _)%singleLineBuilder_fields.
  unfold renderedAttributes, renderedVaryings.
  destruct forHitDetection; [|done].
  rewrite !forallb_app, Ha, Hv. done.
Qed.

Lemma uniformDeclaration_singleLine (uniform : string) :
  singleLine uniform = true → singleLine (ShaderBuilder.uniformDeclaration uniform) = true.
Proof.
  intros H. unfold ShaderBuilder.uniformDeclaration. by rewrite !singleLine_append, H.
Qed.

Lemma attributeDeclaration_singleLine (attribute : string) :
  singleLine attribute = true →
  singleLine (ShaderBuilder.attributeDeclaration attribute) = true.
Proof.
  intros H. unfold ShaderBuilder.attributeDeclaration. by rewrite !singleLine_append, H.
Qed.

Lemma varyingDeclaration_singleLine (varying : Varying.t) :
  singleLine (Varying.name varying) && singleLine (Varying.type varying)
    && singleLine (Varying.expression varying) = true →
  singleLine (ShaderBuilder.varyingDeclaration varying) = true.
Proof.
  intros [[Hn Ht]%andb_true_iff He]%andb_true_iff.
  unfold ShaderBuilder.varyingDeclaration. by rewrite !singleLine_append, Hn, Ht.
Qed.

Lemma varyingAssignment_singleLine (varying : Varying.t) :
  singleLine (Varying.name varying) && singleLine (Varying.type varying)
    && singleLine (Varying.expression varying) = true →
  singleLine (ShaderBuilder.varyingAssignment varying) = true.
Proof.
  intros [[Hn Ht]%andb_true_iff He]%andb_true_iff.
  unfold ShaderBuilder.varyingAssignment. by rewrite !singleLine_append, Hn, He.
Qed.

Lemma vertexLines_singleLine (forHitDetection : bool) (this : ShaderBuilder.t) :
  singleLineBuilder this = true →
  Forall (fun line => singleLine line = true) (vertexLines forHitDetection this).
Proof.
  intros Hthis.
  destruct (rendered_singleLine forHitDetection this Hthis) as [Ha Hv].
  destruct (singleLineBuilder_fields this Hthis)
    as (Hu & _ & _ & Hsize & Hrotation & Hoffset & _ & HtexCoord & _).
  unfold vertexLines. repeat apply Forall_app_2.
  - by repeat constructor.
  - apply Forall_block; [done|].
    by apply (Forall_map_singleLine _ singleLine), Hu; apply uniformDeclaration_singleLine.
  - by repeat constructor.
  - apply Forall_block; [done|].
    by apply (Forall_map_singleLine _ singleLine), Ha; apply attributeDeclaration_singleLine.
  - by repeat constructor.
  - apply Forall_block; [done|].
    eapply Forall_map_singleLine, Hv. apply varyingDeclaration_singleLine.
  - unfold vertexMainLines.
    repeat (constructor;
            [rewrite ?singleLine_append, ?Hsize, ?Hrotation, ?Hoffset, ?HtexCoord;
             try reflexivity|]); [|constructor].
    by destruct (ShaderBuilder.rotateWithView this).
  - apply Forall_block; [done|].
    eapply Forall_map_singleLine, Hv. apply varyingAssignment_singleLine.
  - by repeat constructor.
Qed.

Lemma fragmentLines_singleLine (forHitDetection : bool) (this : ShaderBuilder.t) :
  singleLineBuilder this = true →
  Forall (fun line => singleLine line = true) (fragmentLines forHitDetection this).
Proof.
  intros Hthis.
  destruct (rendered_singleLine forHitDetection this Hthis) as [Ha Hv].
  destruct (singleLineBuilder_fields this Hthis)
    as (Hu & _ & _ & _ & _ & _ & Hcolor & _ & Hdiscard).
  unfold fragmentLines. repeat apply Forall_app_2.
  - by repeat constructor.
  - apply Forall_block; [done|].
    by apply (Forall_map_singleLine _ singleLine), Hu; apply uniformDeclaration_singleLine.
  - by repeat constructor.
  - apply Forall_block; [done|].
    eapply Forall_map_singleLine, Hv. apply varyingDeclaration_singleLine.
  - unfold fragmentMainLines.
    repeat (constructor;
            [rewrite ?singleLine_append, ?Hcolor, ?Hdiscard; try reflexivity|]);
      [|constructor].
    by destruct forHitDetection.
Qed.

(** X1: when no string held by the builder contains a line feed, the vertex
    program splits into exactly the lines of [vertexLines]: the precision
    line and the six fixed uniforms, one line per user uniform, the two
    fixed attributes, one line per attribute, the two built-in varyings,
    one line per varying, the body of [main] with one line for each of the
    offset matrix, size, offset, rotation and texture-coordinate slots, one
    assignment line per varying and the closing brace; where a list is
    empty, one empty line stands in its place. *)
Theorem vertex_program_lines (forHitDetection : bool) (this : ShaderBuilder.t) :
  singleLineBuilder this = true →
  lines (ShaderBuilder.eval (ShaderBuilder.getSymbolVertexShader forHitDetection) this)
  = vertexLines forHitDetection this.
Proof.
  intros Hthis. rewrite vertex_program_joined.
  apply lines_join; [by apply vertexLines_singleLine|].
  unfold vertexLines. by apply app_not_nil_l.
Qed.

(** X2: when no string held by the builder contains a line feed, the
    fragment program splits into exactly the lines of [fragmentLines]: the
    precision line and the three fixed uniforms, one line per user uniform,
    the two built-in varyings, one line per varying, then [main]: the
    conditional discard on the discard expression, the assignment of the
    color expression, the premultiplication by alpha, the hit detection
    line (an empty line in the plain program) and the closing brace. *)
Theorem fragment_program_lines (forHitDetection : bool) (this : ShaderBuilder.t) :
  singleLineBuilder this = true →
  lines (ShaderBuilder.eval (ShaderBuilder.getSymbolFragmentShader forHitDetection) this)
  = fragmentLines forHitDetection this.
Proof.
  intros Hthis. rewrite fragment_program_joined.
  apply lines_join; [by apply fragmentLines_singleLine|].
  unfold fragmentLines. by apply app_not_nil_l.
Qed.

Lemma prefix_append (a b : string) : String.prefix a (a +:+ b) = true.
Proof.
  induction a as [|c a IH]; [by destruct b|].
  rewrite append_cons. cbn [String.prefix]. by destruct (ascii_dec c c).
Qed.

Lemma filter_block_all {A} (p : string → bool) (f : A → string) (l : list A) :
  p "" = false → (∀ x, p (f x) = true) → List.filter p (block (map f l)) = map f l.
Proof.
  intros Hempty Hall. destruct l as [|x l].
  - cbn. rewrite Hempty. reflexivity.
  - change (block (map f (x :: l))) with (map f (x :: l)).
    generalize (x :: l). intros l'.
    induction l' as [|y l' IH]; [reflexivity|]. cbn. rewrite Hall, IH. reflexivity.
Qed.

Lemma filter_block_none {A} (p : string → bool) (f : A → string) (l : list A) :
  p "" = false → (∀ x, p (f x) = false) → List.filter p (block (map f l)) = [].
Proof.
  intros Hempty Hnone. destruct l as [|x l].
  - cbn. rewrite Hempty. reflexivity.
  - change (block (map f (x :: l))) with (map f (x :: l)).
    generalize (x :: l). intros l'.
    induction l' as [|y l' IH]; [reflexivity|]. cbn. rewrite Hnone, IH. reflexivity.
Qed.

(** X3: when no string held by the builder contains a line feed, the two
    programs rendered in the same mode declare the same varyings, in the
    same order: the two built-in ones, then one per varying of the builder
    (then [v_hitColor] in hit detection mode). Both declare every user
    uniform, in order, after the six (vertex) or three (fragment) fixed
    ones; the attributes are declared by the vertex program only. *)
Theorem programs_declare_the_same_interface (forHitDetection : bool)
    (this : ShaderBuilder.t) :
  singleLineBuilder this = true →
  let vertex :=
    ShaderBuilder.eval (ShaderBuilder.getSymbolVertexShader forHitDetection) this in
  let fragment :=
    ShaderBuilder.eval (ShaderBuilder.getSymbolFragmentShader forHitDetection) this in
  declarations "varying " vertex
  = ["varying vec2 v_texCoord;"; "varying vec2 v_quadCoord;"]
      ++ map ShaderBuilder.varyingDeclaration (renderedVaryings forHitDetection this)
  ∧ declarations "varying " fragment = declarations "varying " vertex
  ∧ declarations "uniform " vertex
    = ["uniform mat4 u_projectionMatrix;";
       "uniform mat4 u_offsetScaleMatrix;";
       "uniform mat4 u_offsetRotateMatrix;";
       "uniform float u_time;";
       "uniform float u_zoom;";
       "uniform float u_resolution;"]
        ++ map ShaderBuilder.uniformDeclaration (ShaderBuilder.uniforms this)
  ∧ declarations "uniform " fragment
    = ["uniform float u_time;"; "uniform float u_zoom;"; "uniform float u_resolution;"]
        ++ map ShaderBuilder.uniformDeclaration (ShaderBuilder.uniforms this)
  ∧ declarations "attribute " vertex
    = ["attribute vec2 a_position;"; "attribute float a_index;"]
        ++ map ShaderBuilder.attributeDeclaration
               (renderedAttributes forHitDetection this)
  ∧ declarations "attribute " fragment = [].
Proof.
  intros Hthis. cbn zeta. unfold declarations.
  rewrite vertex_program_joined, fragment_program_joined.
  rewrite !lines_join
    by first [by apply vertexLines_singleLine | by apply fragmentLines_singleLine
             | unfold vertexLines, fragmentLines; by apply app_not_nil_l].
  assert (Hvertex : ∀ keyword,
             keyword = "varying " ∨ keyword = "uniform " ∨ keyword = "attribute " →
             List.filter (String.prefix keyword) (vertexMainLines this) = []).
  { intros keyword [->|[->| ->]]; reflexivity. }
  assert (Hfragment : ∀ keyword,
             keyword = "varying " ∨ keyword = "uniform " ∨ keyword = "attribute " →
             List.filter (String.prefix keyword) (fragmentMainLines forHitDetection this)
             = []).
  { intros keyword [->|[->| ->]]; destruct forHitDetection; reflexivity. }
  unfold vertexLines, fragmentLines. rewrite !List.filter_app.
  rewrite !Hvertex, !Hfragment by auto.
  rewrite !(filter_block_all (String.prefix "varying ") ShaderBuilder.varyingDeclaration)
    by first [done | intros; apply prefix_append].
  rewrite !(filter_block_all (String.prefix "uniform ") ShaderBuilder.uniformDeclaration)
    by first [done | intros; apply prefix_append].
  rewrite !(filter_block_all (String.prefix "attribute ")
              ShaderBuilder.attributeDeclaration)
    by first [done | intros; apply prefix_append].
  rewrite !(filter_block_none (String.prefix "varying ") ShaderBuilder.uniformDeclaration),
    !(filter_block_none (String.prefix "varying ") ShaderBuilder.attributeDeclaration),
    !(filter_block_none (String.prefix "varying ") ShaderBuilder.varyingAssignment),
    !(filter_block_none (String.prefix "uniform ") ShaderBuilder.attributeDeclaration),
    !(filter_block_none (String.prefix "uniform ") ShaderBuilder.varyingDeclaration),
    !(filter_block_none (String.prefix "uniform ") ShaderBuilder.varyingAssignment),
    !(filter_block_none (String.prefix "attribute ") ShaderBuilder.uniformDeclaration),
    !(filter_block_none (String.prefix "attribute ") ShaderBuilder.varyingDeclaration),
    !(filter_block_none (String.prefix "attribute ") ShaderBuilder.varyingAssignment)
    by first [done | intros; reflexivity].
  rewrite ?app_nil_r. do 5 (split; [reflexivity|]). reflexivity.
Qed.

(** X4: which slot a program reads. The vertex program is the same
    after the color or the discard expression is replaced; the fragment
    program is the same after the size, rotation, offset or texture
    coordinate expression or the rotate-with-view flag is replaced, and
    after an attribute is added. *)
Theorem programs_ignore_unrelated_slots (forHitDetection : bool) (this : ShaderBuilder.t)
    (expression : string) (flag : bool) :
  ShaderBuilder.eval (ShaderBuilder.getSymbolVertexShader forHitDetection)
    (ShaderBuilder.exec (ShaderBuilder.setColorExpression expression) this)
  = ShaderBuilder.eval (ShaderBuilder.getSymbolVertexShader forHitDetection) this
  ∧ ShaderBuilder.eval (ShaderBuilder.getSymbolVertexShader forHitDetection)
      (ShaderBuilder.exec (ShaderBuilder.setFragmentDiscardExpression expression) this)
    = ShaderBuilder.eval (ShaderBuilder.getSymbolVertexShader forHitDetection) this
  ∧ ShaderBuilder.eval (ShaderBuilder.getSymbolFragmentShader forHitDetection)
      (ShaderBuilder.exec (ShaderBuilder.setSizeExpression expression) this)
    = ShaderBuilder.eval (ShaderBuilder.getSymbolFragmentShader forHitDetection) this
  ∧ ShaderBuilder.eval (ShaderBuilder.getSymbolFragmentShader forHitDetection)
      (ShaderBuilder.exec (ShaderBuilder.setRotationExpression expression) this)
    = ShaderBuilder.eval (ShaderBuilder.getSymbolFragmentShader forHitDetection) this
  ∧ ShaderBuilder.eval (ShaderBuilder.getSymbolFragmentShader forHitDetection)
      (ShaderBuilder.exec (ShaderBuilder.setSymbolOffsetExpression expression) this)
    = ShaderBuilder.eval (ShaderBuilder.getSymbolFragmentShader forHitDetection) this
  ∧ ShaderBuilder.eval (ShaderBuilder.getSymbolFragmentShader forHitDetection)
      (ShaderBuilder.exec (ShaderBuilder.setTextureCoordinateExpression expression) this)
    = ShaderBuilder.eval (ShaderBuilder.getSymbolFragmentShader forHitDetection) this
  ∧ ShaderBuilder.eval (ShaderBuilder.getSymbolFragmentShader forHitDetection)
      (ShaderBuilder.exec (ShaderBuilder.setSymbolRotateWithView flag) this)
    = ShaderBuilder.eval (ShaderBuilder.getSymbolFragmentShader forHitDetection) this
  ∧ ShaderBuilder.eval (ShaderBuilder.getSymbolFragmentShader forHitDetection)
      (ShaderBuilder.exec (ShaderBuilder.addAttribute expression) this)
    = ShaderBuilder.eval (ShaderBuilder.getSymbolFragmentShader forHitDetection) this.
Proof. do 7 (split; [reflexivity|]). reflexivity. Qed.

(** ** More on the style compiler *)

Section MoreProperties.

Variable E : Expressions.

Lemma parseLiteralStyle_builder style r ctxs :
  parseLiteralStyle E style = Ok (r, ctxs) →
  ∃ c mask builder before,
    compileValues E (styleValues (Style.symbol style)) = Ok c
    ∧ opacityFilter (Symbol.symbolType (Style.symbol style)) (Compiled.visibleSize c)
      = Ok mask
    ∧ applyFilter E (Style.filter style) (configuredBuilder (Style.symbol style) c mask)
                  (Compiled.contexts c)
      = Ok (builder, before)
    ∧ ShaderBuilder.sizeExpression (StyleParseResult.builder r)
      = "vec2(" +:+ Compiled.parsedSize c +:+ ")"
    ∧ ShaderBuilder.rotationExpression (StyleParseResult.builder r)
      = Compiled.parsedRotation c
    ∧ ShaderBuilder.offsetExpression (StyleParseResult.builder r)
      = Compiled.parsedOffset c
    ∧ ShaderBuilder.texCoordExpression (StyleParseResult.builder r)
      = Compiled.parsedTexCoord c
    ∧ ShaderBuilder.rotateWithView (StyleParseResult.builder r)
      = truthy (Symbol.rotateWithView (Style.symbol style)).
Proof.
  intros (c & mask & builder & before & Hc & Hmask & Hfilter & Hfinish)%parseLiteralStyle_Ok.
  exists c, mask, builder, before.
  destruct (applyFilter_Ok _ _ _ _ _ _ Hfilter) as [Hsame _].
  rewrite configuredBuilder_fields in Hsame.
  rewrite finish_closed in Hfinish. injection Hfinish as <- _.
  injection Hsame as _ _ _ Hsize Hrotation Hoffset _ HtexCoord Hrotate.
  cbn. by rewrite Hsize, Hrotation, Hoffset, HtexCoord, Hrotate.
Qed.

(** X5: whenever [parseLiteralStyle] returns, the size, offset, texture
    coordinate and rotation slots of the returned builder hold what
    [expressionToGlsl] returned for the style's size, offset, texture
    rectangle and rotation (with their defaults), compiled in that order on
    one vertex context that starts empty, the size and the offset accepting
    what their type masks say; the size is wrapped in [vec2(...)], and the
    rotate-with-view flag is the truthiness of the style's property. *)
Theorem vertex_slots_are_compiled_vertex_side style r ctxs :
  parseLiteralStyle E style = Ok (r, ctxs) →
  ∃ parsedSize parsedOffset parsedTexCoord parsedRotation vert1 vert2 vert3 vert4,
    expressionToGlsl E (ParsingContext.mk false [] [] ∅ ∅)
      (Values.size (styleValues (Style.symbol style)))
      (Z.lor (NUMBER_ARRAY (ValueTypes E)) (NUMBER (ValueTypes E)))
    = Ok (parsedSize, vert1)
    ∧ expressionToGlsl E vert1 (Values.offset (styleValues (Style.symbol style)))
        (NUMBER_ARRAY (ValueTypes E))
      = Ok (parsedOffset, vert2)
    ∧ expressionToGlsl E vert2 (Values.texCoord (styleValues (Style.symbol style)))
        (NUMBER_ARRAY (ValueTypes E))
      = Ok (parsedTexCoord, vert3)
    ∧ expressionToGlsl E vert3 (Values.rotation (styleValues (Style.symbol style)))
        (NUMBER (ValueTypes E))
      = Ok (parsedRotation, vert4)
    ∧ ShaderBuilder.sizeExpression (StyleParseResult.builder r)
      = "vec2(" +:+ parsedSize +:+ ")"
    ∧ ShaderBuilder.offsetExpression (StyleParseResult.builder r) = parsedOffset
    ∧ ShaderBuilder.texCoordExpression (StyleParseResult.builder r) = parsedTexCoord
    ∧ ShaderBuilder.rotationExpression (StyleParseResult.builder r) = parsedRotation
    ∧ ShaderBuilder.rotateWithView (StyleParseResult.builder r)
      = truthy (Symbol.rotateWithView (Style.symbol style)).
Proof.
  intros (c & mask & builder & before & Hc & _ & _ & Hsize & Hrotation & Hoffset
            & HtexCoord & Hrotate)%parseLiteralStyle_builder.
  apply compileValues_Ok in Hc
    as (vert1 & vert2 & vert3 & vert4 & _ & _ & _ & H1 & H2 & H3 & H4 & _).
  by exists (Compiled.parsedSize c), (Compiled.parsedOffset c),
    (Compiled.parsedTexCoord c), (Compiled.parsedRotation c), vert1, vert2, vert3, vert4.
Qed.

(** X6: whenever [parseLiteralStyle] returns, the attribute entries of the
    result, the attribute declarations of the builder and the vertex-side
    attribute names are one list in one order: entry [i] is named after the
    [i]-th vertex-side attribute, its callback reads the property of that
    name, and the [i]-th declaration of the builder is [float a_<name>]. The
    varyings of the builder are the bridges of the fragment-side names, in
    order, and each of them reads an attribute that the builder declares. *)
Theorem attribute_entries_match_declarations style r ctxs :
  parseLiteralStyle E style = Ok (r, ctxs) →
  StyleParseResult.attributes r
  = map (fun attributeName =>
           CustomAttribute.mk attributeName (PropertyReader attributeName))
        (ParsingContext.attributes (vertContext ctxs))
  ∧ ShaderBuilder.attributes (StyleParseResult.builder r)
    = map (fun entry => "float a_" +:+ CustomAttribute.name entry)
          (StyleParseResult.attributes r)
  ∧ ShaderBuilder.varyings (StyleParseResult.builder r)
    = map (fun attrName => Varying.mk ("v_" +:+ attrName) "float" ("a_" +:+ attrName))
          (ParsingContext.attributes (fragContext ctxs))
  ∧ ∀ varying,
      varying ∈ ShaderBuilder.varyings (StyleParseResult.builder r) →
      ∃ attrName,
        varying = Varying.mk ("v_" +:+ attrName) "float" ("a_" +:+ attrName)
        ∧ ("float a_" +:+ attrName)
          ∈ ShaderBuilder.attributes (StyleParseResult.builder r).
Proof.
  intros (c & mask & builder & before & _ & _ & _ & _ & Ha & Hv & _ & Hfrag & Hvert
            & Hfinish)%parseLiteralStyle_result.
  rewrite Hfrag, Hvert.
  rewrite finish_closed in Hfinish. injection Hfinish as <- _. cbn.
  rewrite Ha, Hv. cbn. split; [done|]. split; [by rewrite map_map|]. split; [done|].
  intros varying (attrName & -> & Hin)%list_elem_of_fmap. exists attrName.
  split; [done|].
  apply (list_elem_of_fmap_2 (fun attrName => "float a_" +:+ attrName)).
  destruct (registerAttribute_fold (ParsingContext.attributes (fragContext before))
              (ParsingContext.attributes (vertContext before)))
    as (added & -> & _ & Hadded).
  rewrite elem_of_app, Hadded.
  destruct (decide (attrName ∈ ParsingContext.attributes (vertContext before))); auto.
Qed.

Lemma registerAttribute_NoDup (fragment known : list string) :
  NoDup known → NoDup (foldl registerAttribute known fragment).
Proof.
  intros Hknown.
  destruct (registerAttribute_fold fragment known) as (added & -> & Hadded & Hin).
  apply NoDup_app. split; [done|]. split; [|done].
  intros name Hname [_ Hnot]%Hin. contradiction.
Qed.

(** X7: the bridging loop never registers a name twice. If the expression
    compiler left the vertex-side attribute names distinct when the loop
    starts, then the entries of the result have distinct names and the
    builder declares every attribute once. *)
Theorem attribute_names_stay_distinct style r ctxs c mask builder before :
  parseLiteralStyle E style = Ok (r, ctxs) →
  compileValues E (styleValues (Style.symbol style)) = Ok c →
  opacityFilter (Symbol.symbolType (Style.symbol style)) (Compiled.visibleSize c)
  = Ok mask →
  applyFilter E (Style.filter style) (configuredBuilder (Style.symbol style) c mask)
              (Compiled.contexts c)
  = Ok (builder, before) →
  NoDup (ParsingContext.attributes (vertContext before)) →
  NoDup (map CustomAttribute.name (StyleParseResult.attributes r))
  ∧ NoDup (ShaderBuilder.attributes (StyleParseResult.builder r)).
Proof.
  intros Hparse Hc Hmask Hfilter Hknown.
  rewrite parseLiteralStyle_stages, Hc, Hmask, Hfilter in Hparse.
  injection Hparse as Hfinish.
  destruct (applyFilter_Ok _ _ _ _ _ _ Hfilter) as [Hsame _].
  rewrite configuredBuilder_fields in Hsame. injection Hsame as _ Ha _ _ _ _ _ _ _.
  rewrite finish_closed in Hfinish. injection Hfinish as <- _. cbn.
  rewrite Ha, map_map. cbn. rewrite map_id.
  pose proof (registerAttribute_NoDup
                (ParsingContext.attributes (fragContext before)) _ Hknown) as Hnodup.
  split; [done|].
  exact (NoDup_fmap_2 (String.append "float a_") _ Hnodup).
Qed.

(** X8: a texture is loaded exactly for shape 'image' with a truthy source.
    In that case the sampler [sampler2D u_texture] is the last uniform the
    builder declares and [uniforms.u_texture] is the image, whose source is
    the style's and whose cross-origin setting is the style's unless that
    is [undefined], in which case it is 'anonymous'. In every other case no
    uniform declared by the builder is the sampler and every entry of
    [uniforms] is the closure of a style variable. *)
Theorem texture_is_loaded_for_image_with_source style r ctxs :
  parseLiteralStyle E style = Ok (r, ctxs) →
  if isImage (Symbol.symbolType (Style.symbol style))
     && truthy (Symbol.src (Style.symbol style))
  then last (ShaderBuilder.uniforms (StyleParseResult.builder r))
       = Some "sampler2D u_texture"
       ∧ StyleParseResult.uniforms r !! "u_texture"
         = Some (Texture
                   (if isUndefined (Symbol.crossOrigin (Style.symbol style))
                    then JStr "anonymous"
                    else Symbol.crossOrigin (Style.symbol style))
                   (Symbol.src (Style.symbol style)))
  else ("sampler2D u_texture" ∉ ShaderBuilder.uniforms (StyleParseResult.builder r))
       ∧ ∀ name value,
           StyleParseResult.uniforms r !! name = Some value →
           ∃ varName, value = VariableValue varName.
Proof.
  intros (c & mask & builder & before & _ & _ & _ & Hu & _ & _ & _ & _ & _ & Hfinish)
    %parseLiteralStyle_result.
  rewrite finish_closed in Hfinish. injection Hfinish as <- _. cbn.
  rewrite Hu. cbn.
  destruct (isImage _ && truthy _).
  - split; [by rewrite last_snoc|]. by rewrite lookup_insert_eq.
  - rewrite app_nil_r. split.
    + intros (varName & Hname & _)%list_elem_of_fmap. discriminate Hname.
    + intros name value [Hempty|(varName & _ & -> & _)]%declared_uniforms.
      * by rewrite lookup_empty in Hempty.
      * by exists varName.
Qed.

(** X9: a value function never hands [undefined] to the renderer: the
    callback of an attribute always returns something else (the number
    -9999999 in its place), and so does the closure of a style variable
    whenever it returns. *)
Theorem value_functions_never_return_undefined :
  (∀ vertContext callback props,
     isUndefined (fst (attributeCallback E vertContext callback props)) = false)
  ∧ (∀ style vertContext varName value vertContext',
       uniformValue E style vertContext varName = Ok (value, vertContext') →
       isUndefined value = false).
Proof.
  split.
  - intros vertContext [attributeName] props. rewrite attributeCallback_cases.
    destruct (getProp props attributeName) as [| |b|x|s|items|object]; try done.
    destruct (getStringNumberEquivalent E vertContext s) as [code ?].
    by destruct code.
  - intros style vertContext varName value vertContext' H.
    pose proof (uniformValue_cases E style vertContext varName) as Hcases.
    destruct (Style.variables style) as [variables|]; [|congruence].
    destruct (getProp variables varName) as [| |b|x|s|items|object];
      rewrite Hcases in H; try discriminate H; try (by injection H as <- _).
    destruct (getStringNumberEquivalent E vertContext s) as [code ?].
    injection H as <- _. by destruct code.
Qed.

(** X10: a string is converted in the same way, through the literal table of
    [vertContext], whether it is the value of a style variable or of a
    feature property: for the same string and the same table both give the
    same number and leave the same table. *)
Theorem variables_and_attributes_share_codes style vertContext varName attributeName
    props variables s :
  Style.variables style = Some variables →
  getProp variables varName = JStr s →
  getProp props attributeName = JStr s →
  uniformValue E style vertContext varName
  = Ok (attributeCallback E vertContext (PropertyReader attributeName) props).
Proof.
  intros Hvariables Hvariable Hproperty.
  pose proof (uniformValue_cases E style vertContext varName) as Hcases.
  rewrite Hvariables, Hvariable in Hcases.
  by rewrite Hcases, attributeCallback_cases, Hproperty.
Qed.

Lemma opacityFilter_Throw symbolType visibleSize e :
  opacityFilter symbolType visibleSize = Throw e → e = UnexpectedSymbolType symbolType.
Proof.
  unfold opacityFilter. destruct symbolType as [| |b|x|s|items|object];
    try (by intros [= <-]).
  repeat (destruct (String.eqb s _); [discriminate|]). by intros [= <-].
Qed.

(** X11: when [parseLiteralStyle] throws and what it throws. It throws [e]
    exactly in three cases: compiling the style values threw [e]; or they
    compiled, the shape tag is unknown and [e] is the unexpected-symbol-type
    error; or they compiled, the shape is known, the filter is truthy and
    compiling it on the fragment context threw [e]. In particular a failure
    of the expression compiler on a style value is reported before an
    unknown shape, and a filter is not looked at when the shape is
    unknown. *)
Theorem parseLiteralStyle_throws style e :
  parseLiteralStyle E style = Throw e
  ↔ compileValues E (styleValues (Style.symbol style)) = Throw e
    ∨ (∃ c,
         compileValues E (styleValues (Style.symbol style)) = Ok c
         ∧ opacityFilter (Symbol.symbolType (Style.symbol style)) (Compiled.visibleSize c)
           = Throw e
         ∧ e = UnexpectedSymbolType (Symbol.symbolType (Style.symbol style)))
    ∨ (∃ c mask,
         compileValues E (styleValues (Style.symbol style)) = Ok c
         ∧ opacityFilter (Symbol.symbolType (Style.symbol style)) (Compiled.visibleSize c)
           = Ok mask
         ∧ truthy (Style.filter style) = true
         ∧ expressionToGlsl E (fragContext (Compiled.contexts c)) (Style.filter style)
                            (BOOLEAN (ValueTypes E))
           = Throw e).
Proof.
  rewrite parseLiteralStyle_stages. split.
  - destruct (compileValues E (styleValues (Style.symbol style))) as [c|e'] eqn:Hc;
      [|intros [= ->]; by left].
    destruct (opacityFilter _ (Compiled.visibleSize c)) as [mask|e'] eqn:Hmask.
    + destruct (applyFilter E _ _ _) as [[builder ctxs]|e'] eqn:Hfilter; [discriminate|].
      intros [= ->]. right; right. exists c, mask.
      unfold applyFilter in Hfilter.
      destruct (truthy (Style.filter style)); [|discriminate].
      unfold viaFragContext in Hfilter.
      destruct (expressionToGlsl E _ (Style.filter style) _) as [[parsed frag]|e'];
        [discriminate|].
      by injection Hfilter as ->.
    + intros [= ->]. right; left. exists c.
      split; [done|]. split; [done|]. by apply opacityFilter_Throw in Hmask.
  - intros [Hc|[(c & Hc & Hmask & _)|(c & mask & Hc & Hmask & Hfilter & Hcall)]].
    + by rewrite Hc.
    + by rewrite Hc, Hmask.
    + rewrite Hc, Hmask. unfold applyFilter. rewrite Hfilter.
      unfold viaFragContext. by rewrite Hcall.
Qed.

End MoreProperties.

(** X12: the slots behave as variables. A getter returns the expression
    last set; setting a slot twice leaves the second expression only, the
    first is not merged in; and setting a slot to what it holds changes
    nothing. *)
Theorem slots_hold_the_last_value_set (this : ShaderBuilder.t) (first second : string) :
  ShaderBuilder.eval ShaderBuilder.getSizeExpression
    (ShaderBuilder.exec (ShaderBuilder.setSizeExpression first) this) = first
  ∧ ShaderBuilder.eval ShaderBuilder.getOffsetExpression
      (ShaderBuilder.exec (ShaderBuilder.setSymbolOffsetExpression first) this) = first
  ∧ ShaderBuilder.eval ShaderBuilder.getColorExpression
      (ShaderBuilder.exec (ShaderBuilder.setColorExpression first) this) = first
  ∧ ShaderBuilder.eval ShaderBuilder.getTextureCoordinateExpression
      (ShaderBuilder.exec (ShaderBuilder.setTextureCoordinateExpression first) this)
    = first
  ∧ ShaderBuilder.eval ShaderBuilder.getFragmentDiscardExpression
      (ShaderBuilder.exec (ShaderBuilder.setFragmentDiscardExpression first) this)
    = first
  ∧ ShaderBuilder.exec (ShaderBuilder.setSizeExpression second)
      (ShaderBuilder.exec (ShaderBuilder.setSizeExpression first) this)
    = ShaderBuilder.exec (ShaderBuilder.setSizeExpression second) this
  ∧ ShaderBuilder.exec (ShaderBuilder.setRotationExpression second)
      (ShaderBuilder.exec (ShaderBuilder.setRotationExpression first) this)
    = ShaderBuilder.exec (ShaderBuilder.setRotationExpression second) this
  ∧ ShaderBuilder.exec (ShaderBuilder.setSymbolOffsetExpression second)
      (ShaderBuilder.exec (ShaderBuilder.setSymbolOffsetExpression first) this)
    = ShaderBuilder.exec (ShaderBuilder.setSymbolOffsetExpression second) this
  ∧ ShaderBuilder.exec (ShaderBuilder.setColorExpression second)
      (ShaderBuilder.exec (ShaderBuilder.setColorExpression first) this)
    = ShaderBuilder.exec (ShaderBuilder.setColorExpression second) this
  ∧ ShaderBuilder.exec (ShaderBuilder.setTextureCoordinateExpression second)
      (ShaderBuilder.exec (ShaderBuilder.setTextureCoordinateExpression first) this)
    = ShaderBuilder.exec (ShaderBuilder.setTextureCoordinateExpression second) this
  ∧ ShaderBuilder.exec (ShaderBuilder.setFragmentDiscardExpression second)
      (ShaderBuilder.exec (ShaderBuilder.setFragmentDiscardExpression first) this)
    = ShaderBuilder.exec (ShaderBuilder.setFragmentDiscardExpression second) this
  ∧ ShaderBuilder.exec
      (ShaderBuilder.bind ShaderBuilder.getColorExpression ShaderBuilder.setColorExpression)
      this
    = this
  ∧ ShaderBuilder.exec
      (ShaderBuilder.bind ShaderBuilder.getFragmentDiscardExpression
                          ShaderBuilder.setFragmentDiscardExpression)
      this
    = this.
Proof. destruct this. do 12 (split; [reflexivity|]). reflexivity. Qed.

(** ** Concrete inputs for the further properties *)

(** X1, on [sampleBuilder] in hit detection mode. *)
Lemma vertex_program_lines_witness :
  singleLineBuilder sampleBuilder = true
  ∧ lines (ShaderBuilder.eval (ShaderBuilder.getSymbolVertexShader true) sampleBuilder)
    = vertexLines true sampleBuilder
  ∧ length (vertexLines true sampleBuilder) = 48.
Proof.
  split; [reflexivity|]. split; [|reflexivity].
  apply vertex_program_lines. reflexivity.
Defined.

(** X2, on [sampleBuilder] in hit detection mode. *)
Lemma fragment_program_lines_witness :
  singleLineBuilder sampleBuilder = true
  ∧ lines (ShaderBuilder.eval (ShaderBuilder.getSymbolFragmentShader true) sampleBuilder)
    = ["precision mediump float;";
       "uniform float u_time;";
       "uniform float u_zoom;";
       "uniform float u_resolution;";
       "uniform float u_level;";
       "varying vec2 v_texCoord;";
       "varying vec2 v_quadCoord;";
       "varying float v_speed;";
       "varying vec4 v_hitColor;";
       "void main(void) {";
       "  if (false) { discard; }";
       "  gl_FragColor = vec4(v_speed);";
       "  gl_FragColor.rgb *= gl_FragColor.a;";
       "  if (gl_FragColor.a < 0.1) { discard; } gl_FragColor = v_hitColor;";
       "}"].
Proof.
  split; [reflexivity|].
  rewrite (fragment_program_lines true sampleBuilder eq_refl). reflexivity.
Defined.

(** X3, on [sampleBuilder] in hit detection mode. *)
Lemma programs_declare_the_same_interface_witness :
  singleLineBuilder sampleBuilder = true
  ∧ declarations "varying "
      (ShaderBuilder.eval (ShaderBuilder.getSymbolFragmentShader true) sampleBuilder)
    = declarations "varying "
        (ShaderBuilder.eval (ShaderBuilder.getSymbolVertexShader true) sampleBuilder).
Proof.
  split; [reflexivity|].
  by destruct (programs_declare_the_same_interface true sampleBuilder eq_refl)
    as (_ & Hsame & _).
Defined.

(** X5, on [Sample.rich]. *)
Lemma vertex_slots_witness :
  ∃ r ctxs,
    parseLiteralStyle Sample.expressions Sample.rich = Ok (r, ctxs)
    ∧ ∃ parsedSize,
        ShaderBuilder.sizeExpression (StyleParseResult.builder r)
        = "vec2(" +:+ parsedSize +:+ ")".
Proof.
  assert (∃ r ctxs, parseLiteralStyle Sample.expressions Sample.rich = Ok (r, ctxs))
    as (r & ctxs & H) by (eexists _, _; run).
  exists r, ctxs. split; [exact H|].
  destruct (vertex_slots_are_compiled_vertex_side _ _ _ _ H)
    as (parsedSize & _ & _ & _ & _ & _ & _ & _ & _ & _ & _ & _ & Hsize & _).
  by exists parsedSize.
Defined.

(** X6, on [Sample.rich]. *)
Lemma attribute_entries_witness :
  ∃ r ctxs,
    parseLiteralStyle Sample.expressions Sample.rich = Ok (r, ctxs)
    ∧ ShaderBuilder.attributes (StyleParseResult.builder r)
      = map (fun entry => "float a_" +:+ CustomAttribute.name entry)
            (StyleParseResult.attributes r).
Proof.
  assert (∃ r ctxs, parseLiteralStyle Sample.expressions Sample.rich = Ok (r, ctxs))
    as (r & ctxs & H) by (eexists _, _; run).
  exists r, ctxs. split; [exact H|].
  by destruct (attribute_entries_match_declarations _ _ _ _ H) as (_ & Hdeclared & _).
Defined.

(** X7, on [Sample.rich]: [heading] is the only vertex-side name when the
    bridging loop starts. *)
Lemma attribute_names_witness :
  ∃ r ctxs c mask builder before,
    parseLiteralStyle Sample.expressions Sample.rich = Ok (r, ctxs)
    ∧ compileValues Sample.expressions (styleValues (Style.symbol Sample.rich)) = Ok c
    ∧ opacityFilter (Symbol.symbolType (Style.symbol Sample.rich))
                    (Compiled.visibleSize c)
      = Ok mask
    ∧ applyFilter Sample.expressions (Style.filter Sample.rich)
                  (configuredBuilder (Style.symbol Sample.rich) c mask)
                  (Compiled.contexts c)
      = Ok (builder, before)
    ∧ ParsingContext.attributes (vertContext before) = ["heading"]
    ∧ NoDup (map CustomAttribute.name (StyleParseResult.attributes r))
    ∧ NoDup (ShaderBuilder.attributes (StyleParseResult.builder r)).
Proof.
  eexists _, _, _, _, _, _.
  split; [run|]. split; [run|]. split; [run|]. split; [run|]. split; [run|].
  apply (attribute_names_stay_distinct Sample.expressions Sample.rich _ _ _ _ _ _
           ltac:(run) ltac:(run) ltac:(run) ltac:(run)).
  vm_compute. apply NoDup_singleton.
Defined.

(** X8, on [sampleTextured]. *)
Lemma texture_witness :
  ∃ r ctxs,
    parseLiteralStyle Sample.expressions sampleTextured = Ok (r, ctxs)
    ∧ last (ShaderBuilder.uniforms (StyleParseResult.builder r))
      = Some "sampler2D u_texture"
    ∧ StyleParseResult.uniforms r !! "u_texture"
      = Some (Texture (JStr "anonymous") (JStr "marker.png")).
Proof.
  assert (∃ r ctxs, parseLiteralStyle Sample.expressions sampleTextured = Ok (r, ctxs))
    as (r & ctxs & H) by (eexists _, _; run).
  exists r, ctxs. split; [exact H|].
  exact (texture_is_loaded_for_image_with_source _ _ _ _ H).
Defined.

(** X10, on the variable [level] of [Sample.rich] and a feature whose
    [speed] is the same string. *)
Lemma shared_codes_witness :
  let context := ParsingContext.mk false ["level"] ["speed"] ∅ ∅ in
  Style.variables Sample.rich = Some (plainObject {[ "level" := JStr "high" ]})
  ∧ getProp (plainObject {[ "level" := JStr "high" ]}) "level" = JStr "high"
  ∧ getProp (plainObject {[ "speed" := JStr "high" ]}) "speed" = JStr "high"
  ∧ uniformValue Sample.expressions Sample.rich context "level"
    = Ok (attributeCallback Sample.expressions context (PropertyReader "speed")
            (plainObject {[ "speed" := JStr "high" ]})).
Proof.
  cbv zeta. split; [reflexivity|]. split; [reflexivity|]. split; [reflexivity|].
  by apply (variables_and_attributes_share_codes Sample.expressions Sample.rich _
              "level" "speed" _ (plainObject {[ "level" := JStr "high" ]}) "high").
Defined.
